(** * gdrivepdf2png: the download / rasterize / upload pipeline of [main.py]

    A shallow embedding of the four coroutines of [main.py]
    ([download_pdf], [convert_pdf_to_images], [upload_image_to_gdrive] and
    the endpoint [convert_pdf]) together with the parts of the libraries
    they call: Python's [try]/[except] with exception chaining, aiohttp's
    response object, PyMuPDF's document object, the Drive v3 client and
    [asyncio.gather].

    The three remote systems (the web server behind the URL, the PDF
    parser and Google Drive) are not code of the repository; they are
    collected in a record [Env] of replies, so every statement below is
    quantified over what those systems answer. *)

From Stdlib Require Import ZArith Ascii String List Lia.
From stdpp Require Import base option list strings pretty gmap infinite.

#[local] Set Warnings "-register-all".

Local Open Scope Z_scope.
Local Open Scope string_scope.
Local Open Scope list_scope.

(** ** Python values *)

(** [bytes]: an immutable sequence of octets. *)
Definition bytes := list Byte.byte.

(** [len(b)] is a Python [int]. *)
Definition len {A} (l : list A) : Z := Z.of_nat (length l).

(** ** Exceptions

    The classes that the handlers of [main.py] tell apart.
    [fastapi.HTTPException] derives from [Exception] (through Starlette's
    class) and is unrelated to [aiohttp.ClientError]; every other class
    that derives from [Exception] is [OtherException].  An exception raised
    while a handler runs records the exception being handled in its
    [__context__]; the third field of [HTTPException] is that link.
    Signals that derive from [BaseException] only (cancellation, interpreter
    exit) are not modelled. *)
Inductive exn : Type :=
| HTTPException (status_code : Z) (detail : string) (context : option exn)
| ClientError (msg : string)
| OtherException (msg : string).

Definition is_ClientError (e : exn) : bool :=
  match e with ClientError _ => true | _ => false end.

(** The status the framework answers with when [e] leaves the endpoint:
    the exception's own [status_code] for an [HTTPException], and the
    server-error handler's 500 for anything else. *)
Definition http_status_of (e : exn) : Z :=
  match e with
  | HTTPException status_code _ _ => status_code
  | _ => 500
  end.

(** The outcome of evaluating a Python expression or block. *)
Inductive result (A : Type) : Type :=
| Ok (a : A)
| Raise (e : exn).
Arguments Ok {A} a.
Arguments Raise {A} e.

Definition is_Ok {A} (r : result A) : bool :=
  match r with Ok _ => true | Raise _ => false end.

(** ** The remote systems *)

(** *** HTTP: what [session.get] hands back *)
Record Response : Type := {
  status : Z;
  headers : list (string * string);
  (** [await response.read()]: the whole body, or a transport error. *)
  read : result bytes
}.

(** *** PyMuPDF: an opened document

    [page_count] is what the document reports; [render page_num dpi] is the
    chain [doc.load_page(page_num).get_pixmap(dpi=dpi).tobytes("png")],
    which yields the PNG octets of one page or raises. *)
Record Document : Type := {
  page_count : nat;
  render : nat -> Z -> result bytes
}.

(** *** Google Drive: the object store *)
Record DriveFile : Type := {
  name : string;
  parents : list (option string);
  mimeType : string;
  media : bytes;
  (** Whether a permission [{type: anyone, role: reader}] is attached. *)
  anyone_reader : bool
}.

(** Calls into the remote systems, in the order they are made. *)
Inductive Event : Type :=
| EvGet (url : string)
| EvRead
| EvOpen (stream : bytes)
| EvLoadPage (page_num : nat)
| EvFilesCreate (filename : string)
| EvPermissionsCreate (fileId : string).

(** What a request can observe and change: the objects held by Drive and
    the log of remote calls made so far (oldest first). *)
Record World : Type := {
  files : gmap string DriveFile;
  trace : list Event
}.

Definition emit (ev : Event) (w : World) : World :=
  {| files := files w; trace := trace w ++ [ev] |}.

(** The replies of the remote systems.  Drive's replies may depend on
    everything Drive has seen ([World]), so a fault can hit any call. *)
Record Env : Type := {
  (** [session.get(url, allow_redirects=True)] *)
  http_get : string -> result Response;
  (** [fitz.open(stream=pdf_bytes, filetype="pdf")] *)
  fitz_open : bytes -> result Document;
  (** [os.getenv("GDRIVE_FOLDER_ID")] *)
  GDRIVE_FOLDER_ID : option string;
  (** [files().create(...).execute()]: the identifier Drive gives the new
      object, or the error it answers with. *)
  files_create_reply : World -> string -> bytes -> result string;
  (** [permissions().create(...).execute()]: [None] when it succeeds. *)
  permissions_create_reply : World -> string -> option exn
}.

(** Drive never gives a new object the identifier of one it holds. *)
Definition fresh_ids (env : Env) : Prop :=
  forall w filename content file_id,
    files_create_reply env w filename content = Ok file_id ->
    files w !! file_id = None.

(** [w'] still holds every object of [w], unchanged. *)
Definition keeps_objects (w w' : World) : Prop :=
  forall file_id f, files w !! file_id = Some f -> files w' !! file_id = Some f.

(** ** Coroutines: state and exceptions *)

Definition M (A : Type) : Type := World -> result A * World.

Definition ret {A} (a : A) : M A := fun w => (Ok a, w).

Definition raise {A} (e : exn) : M A := fun w => (Raise e, w).

Definition bind {A B} (m : M A) (k : A -> M B) : M B :=
  fun w =>
    match m w with
    | (Ok a, w') => k a w'
    | (Raise e, w') => (Raise e, w')
    end.

Notation "'let*' x ':=' m 'in' k" := (bind m (fun x => k))
  (at level 10, x name, m at level 100, k at level 200).

(** Lift the reply of a remote system, logging the call. *)
Definition call {A} (ev : Event) (reply : result A) : M A :=
  fun w => (reply, emit ev w).

(** [try: body / except ...: handler]: the handler sees every exception of
    the body (each modelled class derives from [Exception]). *)
Definition try_except {A} (body : M A) (handler : exn -> M A) : M A :=
  fun w =>
    match body w with
    | (Ok a, w') => (Ok a, w')
    | (Raise e, w') => handler e w'
    end.

(** ** Strings *)

Definition lower_ascii (c : ascii) : ascii :=
  let n := N_of_ascii c in
  if ((65 <=? n) && (n <=? 90))%N then ascii_of_N (n + 32) else c.

(** [s.lower()].  A string is a sequence of octets here and only the
    letters A to Z are mapped.  For the test ["pdf" in s.lower()] this is
    the whole story: P, D and F are the only characters that lower-case to
    p, d or f. *)
Fixpoint lower (s : string) : string :=
  match s with
  | EmptyString => EmptyString
  | String c s' => String (lower_ascii c) (lower s')
  end.

Fixpoint startswith (p s : string) : bool :=
  match p, s with
  | EmptyString, _ => true
  | String a p', String b s' => if Ascii.eqb a b then startswith p' s' else false
  | String _ _, EmptyString => false
  end.

(** [needle in hay] *)
Fixpoint contains (needle hay : string) : bool :=
  startswith needle hay ||
  match hay with
  | EmptyString => false
  | String _ hay' => contains needle hay'
  end.

(** [headers.get(key, default)] of a case-insensitive multi-dict: the value
    of the first entry whose key matches. *)
Fixpoint headers_get (hs : list (string * string)) (key default : string) : string :=
  match hs with
  | [] => default
  | (k, v) :: hs' =>
      if String.eqb (lower k) (lower key) then v else headers_get hs' key default
  end.

(** ** [download_pdf] *)

Definition MAX_PDF_SIZE : Z := 10 * 1024 * 1024.

Definition download_pdf_body (env : Env) (url : string) : M bytes :=
  let* response := call (EvGet url) (http_get env url) in
  if negb (status response =? 200)%Z then
    raise (HTTPException 400
             ("Failed to download PDF. Status code: " +:+ pretty (status response)) None)
  else
    let content_type := headers_get (headers response) "Content-Type" "" in
    if negb (contains "pdf" (lower content_type)) then
      raise (HTTPException 400
               ("URL does not point to a PDF file. Content-Type: " +:+ content_type) None)
    else
      let* pdf_bytes := call EvRead (read response) in
      if (len pdf_bytes >? MAX_PDF_SIZE)%Z then
        raise (HTTPException 400 "PDF file is too large." None)
      else ret pdf_bytes.

(** The two [except] clauses, tried in order. *)
Definition download_pdf_handler (e : exn) : M bytes :=
  if is_ClientError e then
    raise (HTTPException 400 "Client error occurred while downloading PDF." (Some e))
  else
    raise (HTTPException 500 "Unexpected error occurred." (Some e)).

Definition download_pdf (env : Env) (url : string) : M bytes :=
  try_except (download_pdf_body env url) download_pdf_handler.

(** ** [convert_pdf_to_images]

    The function as it runs when its two diagnostic calls
    ([log_resource_usage], inside the [try] block) return: they reach no
    remote system and return nothing.  The calls are written out in
    [convert_pdf_to_images_logged] below, which also covers the runs in
    which one of them raises. *)

Definition MAX_PAGE_COUNT : nat := 300.
Definition DPI : Z := 100.

(** The [for page_num in ...] loop: render, then append to
    [image_bytes_list]. *)
Fixpoint render_pages (doc : Document) (page_nums : list nat)
    (image_bytes_list : list bytes) : M (list bytes) :=
  match page_nums with
  | [] => ret image_bytes_list
  | page_num :: rest =>
      let* image_bytes := call (EvLoadPage page_num) (render doc page_num DPI) in
      render_pages doc rest (image_bytes_list ++ [image_bytes])
  end.

Definition convert_pdf_to_images_body (env : Env) (pdf_bytes : bytes) : M (list bytes) :=
  let* doc := call (EvOpen pdf_bytes) (fitz_open env pdf_bytes) in
  if (MAX_PAGE_COUNT <? page_count doc)%nat then
    raise (HTTPException 400
             ("PDF has too many pages (" +:+ pretty (page_count doc)
              +:+ "). Maximum allowed is " +:+ pretty MAX_PAGE_COUNT +:+ ".") None)
  else
    render_pages doc (seq 0 (Nat.min (page_count doc) MAX_PAGE_COUNT)) [].

Definition convert_pdf_to_images_handler (e : exn) : M (list bytes) :=
  raise (HTTPException 500 "Error converting PDF to images." (Some e)).

Definition convert_pdf_to_images (env : Env) (pdf_bytes : bytes) : M (list bytes) :=
  try_except (convert_pdf_to_images_body env pdf_bytes) convert_pdf_to_images_handler.

(** ** [upload_image_to_gdrive] *)

(** [drive_service.files().create(body=..., media_body=..., fields='id')
    .execute()]: on success Drive holds a new object, not yet shared, and
    answers with its identifier. *)
Definition files_create (env : Env) (filename : string)
    (folders : list (option string)) (mimetype : string) (content : bytes) : M string :=
  fun w =>
    let w1 := emit (EvFilesCreate filename) w in
    match files_create_reply env w filename content with
    | Ok file_id =>
        (Ok file_id,
         {| files := <[file_id :=
                        {| name := filename; parents := folders; mimeType := mimetype;
                           media := content; anyone_reader := false |}]> (files w1);
            trace := trace w1 |})
    | Raise e => (Raise e, w1)
    end.

Definition share (f : DriveFile) : DriveFile :=
  {| name := name f; parents := parents f; mimeType := mimeType f;
     media := media f; anyone_reader := true |}.

(** [drive_service.permissions().create(fileId=...,
    body={'type': 'anyone', 'role': 'reader'}).execute()]: a failed call
    leaves the object as it was. *)
Definition permissions_create (env : Env) (fileId : string) : M unit :=
  fun w =>
    let w1 := emit (EvPermissionsCreate fileId) w in
    match permissions_create_reply env w fileId with
    | None => (Ok tt, {| files := alter share fileId (files w1); trace := trace w1 |})
    | Some e => (Raise e, w1)
    end.

Definition shareable_link (file_id : string) : string :=
  "https://drive.google.com/uc?id=" +:+ file_id.

Definition upload_image_to_gdrive_body (env : Env) (image_bytes : bytes)
    (filename : string) : M string :=
  let* file_id :=
    files_create env filename [GDRIVE_FOLDER_ID env] "image/png" image_bytes in
  let* _ := permissions_create env file_id in
  ret (shareable_link file_id).

Definition upload_image_to_gdrive_handler (e : exn) : M string :=
  raise (HTTPException 500 "Error uploading images." (Some e)).

Definition upload_image_to_gdrive (env : Env) (image_bytes : bytes)
    (filename : string) : M string :=
  try_except (upload_image_to_gdrive_body env image_bytes filename)
             upload_image_to_gdrive_handler.

(** ** [asyncio.gather]

    [gather] keeps one child future per awaitable, in argument order, and an
    [outer] future for the caller.  Every time a child finishes, its done
    callback runs: it counts the child, forwards the first exception to
    [outer], and once all children are counted fills [outer] with the
    children's results read in argument order.

    The body of [upload_image_to_gdrive] contains no [await], so a child,
    once the loop starts it, runs to its end; the loop only chooses the
    order, which is the [sched] argument below. *)
Section Gather.
Context {A : Type}.

Record GatherState : Type := {
  children : list (option (result A));
  nfinished : nat;
  outer : option (result (list A))
}.

Definition gather_init (nfuts : nat) : GatherState :=
  {| children := replicate nfuts None; nfinished := 0%nat; outer := None |}.

(** [fut.result()] of a child that finished without an exception. *)
Definition fut_result (fut : option (result A)) : option A :=
  match fut with
  | Some (Ok a) => Some a
  | _ => None
  end.

Definition done_callback (nfuts k : nat) (r : result A) (st : GatherState)
    : GatherState :=
  let children' := <[k := Some r]> (children st) in
  let nfinished' := S (nfinished st) in
  match outer st with
  | Some _ =>
      {| children := children'; nfinished := nfinished'; outer := outer st |}
  | None =>
      match r with
      | Raise exc =>
          {| children := children'; nfinished := nfinished';
             outer := Some (Raise exc) |}
      | Ok _ =>
          {| children := children'; nfinished := nfinished';
             outer := if (nfinished' =? nfuts)%nat
                      then Ok <$> mapM fut_result children'
                      else None |}
      end
  end.

(** The order in which the children finish: the loop's picks (each child
    once, unknown indices dropped), then whatever is still pending, in
    argument order.  Every child finishes. *)
Definition completion_order (nfuts : nat) (sched : list nat) : list nat :=
  let picked := remove_dups (filter (fun k => (k < nfuts)%nat) sched) in
  picked ++ filter (fun k => k ∉ picked) (seq 0 nfuts).

(** Run the children in the given order; after each, its done callback. *)
Fixpoint run_children (nfuts : nat) (order : list nat) (tasks : list (M A))
    (st : GatherState) (w : World) : GatherState * World :=
  match order with
  | [] => (st, w)
  | k :: rest =>
      match tasks !! k with
      | None => run_children nfuts rest tasks st w
      | Some task =>
          let '(r, w') := task w in
          run_children nfuts rest tasks (done_callback nfuts k r st) w'
      end
  end.

(** What each child returned, in the order the children finished. *)
Fixpoint completions (order : list nat) (tasks : list (M A)) (w : World)
    : list (nat * result A) :=
  match order with
  | [] => []
  | k :: rest =>
      match tasks !! k with
      | None => completions rest tasks w
      | Some task => let '(r, w') := task w in (k, r) :: completions rest tasks w'
      end
  end.

(** The done callbacks of the children that finished, applied in the
    order they finished, and the slots they fill. *)
Definition feed (nfuts : nat) (st : GatherState) (h : list (nat * result A))
    : GatherState :=
  foldl (fun st kr => done_callback nfuts kr.1 kr.2 st) st h.

Definition fill (slots : list (option (result A))) (h : list (nat * result A))
    : list (option (result A)) :=
  foldl (fun slots kr => <[kr.1 := Some kr.2]> slots) slots h.

(** [await asyncio.gather] of the tasks.  With no awaitable, [outer] is filled
    with the empty list at once.  Otherwise every child is run, so [outer]
    is filled by the time the caller resumes ([gather_outer_filled]
    below); the last branch is never taken. *)
Definition gather (sched : list nat) (tasks : list (M A)) : M (list A) :=
  fun w =>
    match tasks with
    | [] => (Ok [], w)
    | _ =>
        let nfuts := length tasks in
        let '(st, w') :=
          run_children nfuts (completion_order nfuts sched) tasks
                       (gather_init nfuts) w in
        (match outer st with
         | Some r => r
         | None => Raise (OtherException "InvalidStateError")
         end, w')
    end.
End Gather.
Arguments GatherState : clear implicits.

(** ** The endpoint [convert_pdf]

    The handler of [POST /convert-pdf], run on [str(pdf.url)].  The
    framework runs it only for a request body that passed the validation of
    [PDFUrl]; [sched] is the order in which the event loop lets the uploads
    finish.  The rasterizer is [convert_pdf_to_images];
    [convert_pdf_logged] below is the same handler over
    [convert_pdf_to_images_logged]. *)

(** [f"page{idx + 1}.png"] *)
Definition page_filename (idx : nat) : string :=
  "page" +:+ pretty (idx + 1)%nat +:+ ".png".

(** The list comprehension over [enumerate(image_bytes_list)]: coroutine
    objects, none of them started yet. *)
Definition upload_tasks (env : Env) (image_bytes_list : list bytes) : list (M string) :=
  imap (fun idx image_bytes => upload_image_to_gdrive env image_bytes (page_filename idx))
       image_bytes_list.

Definition convert_pdf (env : Env) (sched : list nat) (url : string) : M (list string) :=
  let* pdf_bytes := download_pdf env url in
  let* image_bytes_list := convert_pdf_to_images env pdf_bytes in
  let* image_urls := gather sched (upload_tasks env image_bytes_list) in
  match image_urls with
  | [] => raise (HTTPException 500 "No images were generated." None)
  | _ => ret image_urls
  end.

(** What the framework sends back for an outcome of the endpoint: the JSON
    object [{"images": [...]}] with status 200, or the error's status. *)
Definition response_status (r : result (list string)) : Z :=
  match r with
  | Ok _ => 200
  | Raise e => http_status_of e
  end.

(** A world in which Drive is empty and nothing has been called. *)
Definition initial_world : World := {| files := ∅; trace := [] |}.

(** The exception the last [except] clause of [download_pdf] raises. *)
Definition unexpected (cause : exn) : exn :=
  HTTPException 500 "Unexpected error occurred." (Some cause).

(** ** [log_resource_usage] and the rasterizer's two calls of it

    [log_resource_usage(stage)] asks the operating system for the memory
    and processor use of the process and writes one line to the log; it
    reaches none of the remote systems.  What matters to its callers is
    whether it returns or raises, which is what [diag stage] says ([None]
    when it returns). *)
Definition log_resource_usage (diag : string -> option exn) (stage : string) : M unit :=
  fun w =>
    match diag stage with
    | None => (Ok tt, w)
    | Some e => (Raise e, w)
    end.

(** [convert_pdf_to_images] with the two diagnostic calls of its [try]
    block written out: one before the document is opened, one after the
    [with] block. *)
Definition convert_pdf_to_images_logged (diag : string -> option exn) (env : Env)
    (pdf_bytes : bytes) : M (list bytes) :=
  try_except
    (let* _ := log_resource_usage diag "Before Conversion" in
     let* image_bytes_list := convert_pdf_to_images_body env pdf_bytes in
     let* _ := log_resource_usage diag "After Conversion" in
     ret image_bytes_list)
    convert_pdf_to_images_handler.

(** The endpoint [convert_pdf] with the rasterizer's diagnostic calls in
    place. *)
Definition convert_pdf_logged (diag : string -> option exn) (env : Env)
    (sched : list nat) (url : string) : M (list string) :=
  let* pdf_bytes := download_pdf env url in
  let* image_bytes_list := convert_pdf_to_images_logged diag env pdf_bytes in
  let* image_urls := gather sched (upload_tasks env image_bytes_list) in
  match image_urls with
  | [] => raise (HTTPException 500 "No images were generated." None)
  | _ => ret image_urls
  end.

(** ** Worlds that follow one another *)

(** [w'] comes after [w]: the objects of [w] are still there, unchanged,
    and the calls logged in [w] are the first calls logged in [w']. *)
Definition extends (w w' : World) : Prop :=
  keeps_objects w w' /\ trace w `prefix_of` trace w'.

(** A call of the Drive client. *)
Definition is_drive_call (ev : Event) : bool :=
  match ev with
  | EvFilesCreate _ | EvPermissionsCreate _ => true
  | _ => false
  end.

(** A computation that leaves Drive alone: the objects stay as they are
    and none of the calls it makes is a call of the Drive client. *)
Definition quiet {A} (m : M A) : Prop :=
  forall w,
    files (snd (m w)) = files w /\
    exists calls,
      trace (snd (m w)) = trace w ++ calls /\
      Forall (fun ev => is_drive_call ev = false) calls.

(** Between [w] and [w'] only the Drive client was called. *)
Definition only_drive_calls (w w' : World) : Prop :=
  exists calls,
    trace w' = trace w ++ calls /\
    Forall (fun ev => is_drive_call ev = true) calls.

(** ** Sample inputs

    Small concrete replies of the remote systems, used to run the model. *)
Module Sample.

(** The first octets of a PDF file and of a PNG file. *)
Definition pdf : bytes := [Byte.x25; Byte.x50; Byte.x44; Byte.x46].
Definition png : bytes := [Byte.x89; Byte.x50; Byte.x4e; Byte.x47].

Definition response (st : Z) (content_type : string) (body : bytes) : Response :=
  {| status := st; headers := [("Content-Type", content_type)]; read := Ok body |}.

(** The image of page [k]: each page has a buffer of its own. *)
Definition page (k : nat) : bytes := png ++ replicate k Byte.x00.

(** A document of [n] pages. *)
Definition document (n : nat) : Document :=
  {| page_count := n; render := fun page_num _ => Ok (page page_num) |}.

(** Drive gives a new object an identifier that no object it holds has;
    [grant] is what a permission request is answered with. *)
Definition env (r : Response) (d : Document) (grant : option exn) : Env :=
  {| http_get := fun _ => Ok r;
     fitz_open := fun _ => Ok d;
     GDRIVE_FOLDER_ID := Some "folder";
     files_create_reply := fun w _ _ => Ok (fresh (dom (files w)));
     permissions_create_reply := fun _ _ => grant |}.

(** A Drive that refuses the permission requests made before its third
    call, and grants the later ones. *)
Definition flaky_env (d : Document) : Env :=
  {| http_get := fun _ => Ok (response 200 "application/pdf" pdf);
     fitz_open := fun _ => Ok d;
     GDRIVE_FOLDER_ID := Some "folder";
     files_create_reply := fun w _ _ => Ok (fresh (dom (files w)));
     permissions_create_reply := fun w _ =>
       if (length (trace w) <? 2)%nat
       then Some (OtherException "HttpError 403") else None |}.

Definition url : string := "https://example.com/a.pdf".

(** One octet more than [download_pdf] accepts. *)
Definition oversized : bytes := replicate (Z.to_nat (MAX_PDF_SIZE + 1)) Byte.x00.

End Sample.

(** * Properties *)

(** ** Strings *)

Lemma startswith_spec (p s : string) :
  startswith p s = true <-> exists t, s = p +:+ t.
Proof.
  revert s; induction p as [|a p IH]; intros s; simpl.
  - split; [intros _; exists s; reflexivity | reflexivity].
  - destruct s as [|b s].
    + split; [discriminate | intros [t Ht]; discriminate].
    + destruct (Ascii.eqb a b) eqn:Hab.
      * apply Ascii.eqb_eq in Hab; subst b. rewrite IH. split.
        -- intros [t ->]. exists t; reflexivity.
        -- intros [t Ht]. injection Ht as ->. exists t; reflexivity.
      * apply Ascii.eqb_neq in Hab. split; [discriminate|].
        intros [t Ht]. injection Ht as -> _. congruence.
Qed.

(** [contains] decides the substring relation. *)
Lemma contains_spec (needle hay : string) :
  contains needle hay = true <-> exists a b, hay = a +:+ needle +:+ b.
Proof.
  induction hay as [|c hay IH]; simpl.
  - rewrite orb_false_r, startswith_spec. split.
    + intros [t Ht]. exists "", t. exact Ht.
    + intros (a & b & Hab). destruct a; [|discriminate].
      exists b. exact Hab.
  - rewrite orb_true_iff, startswith_spec, IH. split.
    + intros [[t Ht] | (a & b & Hab)].
      * exists "", t. exact Ht.
      * exists (String c a), b. rewrite Hab. reflexivity.
    + intros (a & b & Hab). destruct a as [|c' a]; simpl in Hab.
      * left. exists b. exact Hab.
      * right. injection Hab as _ ->. exists a, b. reflexivity.
Qed.

Lemma contains_false (needle hay : string) :
  contains needle hay = false <-> ~ exists a b, hay = a +:+ needle +:+ b.
Proof.
  rewrite <- contains_spec. destruct (contains needle hay); split; intros H;
    congruence || (exfalso; apply H; reflexivity) || discriminate.
Qed.

(** ** The fetch step *)

(** A body that raises an [HTTPException] leaves [download_pdf] through the
    second [except] clause. *)
Lemma download_pdf_wraps env url w (e : exn) w' :
  download_pdf_body env url w = (Raise e, w') ->
  is_ClientError e = false ->
  download_pdf env url w = (Raise (unexpected e), w').
Proof.
  intros Hbody He. unfold download_pdf, try_except. rewrite Hbody.
  unfold download_pdf_handler. rewrite He. reflexivity.
Qed.

Lemma download_pdf_body_bad_status env url w response :
  http_get env url = Ok response ->
  status response <> 200 ->
  download_pdf_body env url w =
    (Raise (HTTPException 400
              ("Failed to download PDF. Status code: " +:+ pretty (status response)) None),
     emit (EvGet url) w).
Proof.
  intros Hget Hst. unfold download_pdf_body, bind, call. rewrite Hget.
  apply Z.eqb_neq in Hst. rewrite Hst. reflexivity.
Qed.

Lemma download_pdf_body_bad_content_type env url w response :
  http_get env url = Ok response ->
  status response = 200 ->
  contains "pdf" (lower (headers_get (headers response) "Content-Type" "")) = false ->
  download_pdf_body env url w =
    (Raise (HTTPException 400
              ("URL does not point to a PDF file. Content-Type: "
               +:+ headers_get (headers response) "Content-Type" "") None),
     emit (EvGet url) w).
Proof.
  intros Hget Hst Hct. unfold download_pdf_body, bind, call. rewrite Hget, Hst.
  change (negb (200 =? 200)%Z) with false. cbv iota. rewrite Hct. reflexivity.
Qed.

Lemma download_pdf_body_read env url w response :
  http_get env url = Ok response ->
  status response = 200 ->
  contains "pdf" (lower (headers_get (headers response) "Content-Type" "")) = true ->
  download_pdf_body env url w =
    match read response with
    | Ok pdf_bytes =>
        if (len pdf_bytes >? MAX_PDF_SIZE)%Z
        then (Raise (HTTPException 400 "PDF file is too large." None),
              emit EvRead (emit (EvGet url) w))
        else (Ok pdf_bytes, emit EvRead (emit (EvGet url) w))
    | Raise e => (Raise e, emit EvRead (emit (EvGet url) w))
    end.
Proof.
  intros Hget Hst Hct. unfold download_pdf_body, bind, call. rewrite Hget, Hst.
  change (negb (200 =? 200)%Z) with false. cbv iota. rewrite Hct. simpl.
  destruct (read response) as [pdf_bytes|e]; [|reflexivity].
  destruct (len pdf_bytes >? MAX_PDF_SIZE)%Z; reflexivity.
Qed.

(** C5. A response with status 200 whose Content-Type value, lower-cased,
    has no substring "pdf" makes [download_pdf] raise: the check's own
    [HTTPException] (status 400) is caught by the [except Exception] clause
    and leaves as "Unexpected error occurred." (status 500) with the check's
    exception as context.  The body is never read (the only call logged is
    the GET), so the outcome does not depend on it. *)
Theorem download_pdf_rejects_non_pdf_content_type env url w response :
  http_get env url = Ok response ->
  status response = 200 ->
  (~ exists a b,
       lower (headers_get (headers response) "Content-Type" "") = a +:+ "pdf" +:+ b) ->
  download_pdf env url w =
    (Raise (HTTPException 500 "Unexpected error occurred."
              (Some (HTTPException 400
                       ("URL does not point to a PDF file. Content-Type: "
                        +:+ headers_get (headers response) "Content-Type" "") None))),
     emit (EvGet url) w).
Proof.
  intros Hget Hst Hct. apply contains_false in Hct.
  apply download_pdf_wraps; [|reflexivity].
  eapply download_pdf_body_bad_content_type; eassumption.
Qed.

(** Nothing after a failed fetch is run. *)
Lemma convert_pdf_download_fails env sched url w e w' :
  download_pdf env url w = (Raise e, w') ->
  convert_pdf env sched url w = (Raise e, w').
Proof. intros H. unfold convert_pdf, bind. rewrite H. reflexivity. Qed.

Lemma emit_emit a b w :
  emit b (emit a w) = {| files := files w; trace := trace w ++ [a; b] |}.
Proof. unfold emit; simpl. rewrite <- app_assoc. reflexivity. Qed.

(** C6. When the body the server would send is longer than 10 MiB,
    [download_pdf] raises and so does [convert_pdf], with the same
    exception; the calls made are the GET and at most the read, never
    [fitz.open].  When the status and the Content-Type pass their checks
    (the case in which the body is fetched at all), the exception is the
    size check's, wrapped by the [except Exception] clause. *)
Theorem oversized_body_never_rasterized env sched url w response pdf_bytes :
  http_get env url = Ok response ->
  read response = Ok pdf_bytes ->
  (len pdf_bytes > 10 * 1024 * 1024)%Z ->
  exists cause calls,
    fst (download_pdf env url w)
      = Raise (HTTPException 500 "Unexpected error occurred." (Some cause)) /\
    convert_pdf env sched url w
      = (Raise (HTTPException 500 "Unexpected error occurred." (Some cause)),
         {| files := files w; trace := trace w ++ calls |}) /\
    (forall stream, EvOpen stream ∉ calls) /\
    (status response = 200 ->
     (exists a b,
        lower (headers_get (headers response) "Content-Type" "") = a +:+ "pdf" +:+ b) ->
     cause = HTTPException 400 "PDF file is too large." None /\
     calls = [EvGet url; EvRead]).
Proof.
  intros Hget Hread Hlen.
  destruct (Z.eq_dec (status response) 200) as [Hst|Hst].
  - destruct (contains "pdf" (lower (headers_get (headers response) "Content-Type" "")))
      eqn:Hct.
    + pose proof (download_pdf_body_read env url w response Hget Hst Hct) as Hbody.
      rewrite Hread in Hbody.
      replace (len pdf_bytes >? MAX_PDF_SIZE)%Z with true in Hbody
        by (symmetry; apply Z.gtb_lt; unfold MAX_PDF_SIZE; lia).
      apply download_pdf_wraps in Hbody; [|reflexivity].
      eexists _, [EvGet url; EvRead]. rewrite Hbody.
      split; [reflexivity|]. split.
      * rewrite (convert_pdf_download_fails _ _ _ _ _ _ Hbody), emit_emit. reflexivity.
      * split; [|intros _ _; split; reflexivity].
        intros stream Hin. repeat (apply elem_of_cons in Hin as [Hin|Hin]; [discriminate|]).
        inversion Hin.
    + pose proof (download_pdf_body_bad_content_type env url w response Hget Hst Hct)
        as Hbody.
      apply download_pdf_wraps in Hbody; [|reflexivity].
      eexists _, [EvGet url]. rewrite Hbody.
      split; [reflexivity|]. split.
      * rewrite (convert_pdf_download_fails _ _ _ _ _ _ Hbody). reflexivity.
      * split.
        -- intros stream Hin. apply elem_of_cons in Hin as [Hin|Hin]; [discriminate|].
           inversion Hin.
        -- intros _ Hex. apply contains_spec in Hex. congruence.
  - pose proof (download_pdf_body_bad_status env url w response Hget Hst) as Hbody.
    apply download_pdf_wraps in Hbody; [|reflexivity].
    eexists _, [EvGet url]. rewrite Hbody.
    split; [reflexivity|]. split.
    + rewrite (convert_pdf_download_fails _ _ _ _ _ _ Hbody). reflexivity.
    + split; [|intros Hst'; contradiction].
      intros stream Hin. apply elem_of_cons in Hin as [Hin|Hin]; [discriminate|].
      inversion Hin.
Qed.

Lemma download_pdf_rejects_non_pdf_content_type_witness :
  download_pdf
    (Sample.env (Sample.response 200 "text/html" Sample.pdf) (Sample.document 1) None)
    Sample.url initial_world
  = (Raise (HTTPException 500 "Unexpected error occurred."
              (Some (HTTPException 400
                       "URL does not point to a PDF file. Content-Type: text/html" None))),
     emit (EvGet Sample.url) initial_world).
Proof.
  apply (download_pdf_rejects_non_pdf_content_type _ _ _
           (Sample.response 200 "text/html" Sample.pdf)).
  - reflexivity.
  - reflexivity.
  - apply contains_false. vm_compute. reflexivity.
Defined.

Lemma oversized_body_never_rasterized_witness :
  exists cause calls,
    fst (download_pdf
           (Sample.env (Sample.response 200 "application/pdf" Sample.oversized)
                       (Sample.document 1) None)
           Sample.url initial_world)
      = Raise (HTTPException 500 "Unexpected error occurred." (Some cause)) /\
    convert_pdf
      (Sample.env (Sample.response 200 "application/pdf" Sample.oversized)
                  (Sample.document 1) None)
      [] Sample.url initial_world
      = (Raise (HTTPException 500 "Unexpected error occurred." (Some cause)),
         {| files := files initial_world; trace := trace initial_world ++ calls |}) /\
    (forall stream, EvOpen stream ∉ calls) /\
    (status (Sample.response 200 "application/pdf" Sample.oversized) = 200 ->
     (exists a b,
        lower (headers_get
                 (headers (Sample.response 200 "application/pdf" Sample.oversized))
                 "Content-Type" "") = a +:+ "pdf" +:+ b) ->
     cause = HTTPException 400 "PDF file is too large." None /\
     calls = [EvGet Sample.url; EvRead]).
Proof.
  apply (oversized_body_never_rasterized _ [] Sample.url initial_world
           (Sample.response 200 "application/pdf" Sample.oversized) Sample.oversized).
  - reflexivity.
  - reflexivity.
  - unfold Sample.oversized, len. rewrite length_replicate.
    rewrite Z2Nat.id; unfold MAX_PDF_SIZE; lia.
Defined.

(** ** The rasterizer *)

Lemma convert_pdf_to_images_open env pdf_bytes w doc :
  fitz_open env pdf_bytes = Ok doc ->
  convert_pdf_to_images_body env pdf_bytes w =
    if (MAX_PAGE_COUNT <? page_count doc)%nat
    then (Raise (HTTPException 400
                   ("PDF has too many pages (" +:+ pretty (page_count doc)
                    +:+ "). Maximum allowed is " +:+ pretty MAX_PAGE_COUNT +:+ ".") None),
          emit (EvOpen pdf_bytes) w)
    else render_pages doc (seq 0 (Nat.min (page_count doc) MAX_PAGE_COUNT)) []
                      (emit (EvOpen pdf_bytes) w).
Proof.
  intros Hopen. unfold convert_pdf_to_images_body, bind, call. rewrite Hopen.
  destruct (MAX_PAGE_COUNT <? page_count doc)%nat; reflexivity.
Qed.



(** The page loop: a returned list extends the accumulator by one buffer
    per requested page, in the order requested, and the pages were loaded
    in that order. *)
Lemma render_pages_Ok doc page_nums :
  forall acc w images,
    fst (render_pages doc page_nums acc w) = Ok images ->
    exists pngs,
      images = acc ++ pngs /\
      Forall2 (fun page_num png => render doc page_num DPI = Ok png) page_nums pngs /\
      snd (render_pages doc page_nums acc w)
        = {| files := files w; trace := trace w ++ (EvLoadPage <$> page_nums) |}.
Proof.
  induction page_nums as [|page_num rest IH]; intros acc w images; simpl.
  - intros [= <-]. exists []. rewrite !app_nil_r. destruct w; auto.
  - unfold bind, call. destruct (render doc page_num DPI) as [png|e] eqn:Hr.
    + intros H. destruct (IH _ _ _ H) as (pngs & -> & Hall & Hw).
      exists (png :: pngs). rewrite <- app_assoc. split; [reflexivity|].
      split; [constructor; assumption|].
      rewrite Hw. unfold emit; simpl. rewrite <- app_assoc. reflexivity.
    + simpl. discriminate.
Qed.

Lemma render_pages_total doc page_nums :
  forall acc w,
    (forall page_num, page_num ∈ page_nums -> is_Ok (render doc page_num DPI) = true) ->
    is_Ok (fst (render_pages doc page_nums acc w)) = true.
Proof.
  induction page_nums as [|page_num rest IH]; intros acc w Hall; simpl.
  - reflexivity.
  - unfold bind, call.
    pose proof (Hall page_num (list_elem_of_here _ _)) as Hp.
    destruct (render doc page_num DPI) as [png|e]; [|discriminate].
    apply IH. intros n Hn. apply Hall. apply list_elem_of_further, Hn.
Qed.



(** ** The endpoint's guard *)

(** C10. A request whose URL answers 200 with a PDF content type and a
    body within the size limit, and whose body parses into a document that
    reports zero pages, passes the fetch step and the rasterizer (which
    returns the empty list) and then fails at the endpoint's guard:
    "No images were generated.", answered with status 500. *)
Theorem zero_page_document_reaches_the_guard env sched url w response pdf_bytes doc :
  http_get env url = Ok response ->
  status response = 200 ->
  contains "pdf" (lower (headers_get (headers response) "Content-Type" "")) = true ->
  read response = Ok pdf_bytes ->
  (len pdf_bytes <= 10 * 1024 * 1024)%Z ->
  fitz_open env pdf_bytes = Ok doc ->
  page_count doc = 0%nat ->
  fst (download_pdf env url w) = Ok pdf_bytes /\
  fst (convert_pdf_to_images env pdf_bytes (snd (download_pdf env url w))) = Ok [] /\
  fst (convert_pdf env sched url w)
    = Raise (HTTPException 500 "No images were generated." None) /\
  response_status (fst (convert_pdf env sched url w)) = 500.
Proof.
  intros Hget Hst Hct Hread Hlen Hopen Hzero.
  assert (Hd : download_pdf env url w = (Ok pdf_bytes, emit EvRead (emit (EvGet url) w))).
  { unfold download_pdf, try_except.
    rewrite (download_pdf_body_read _ _ _ _ Hget Hst Hct), Hread.
    replace (len pdf_bytes >? MAX_PDF_SIZE)%Z with false; [reflexivity|].
    symmetry. rewrite Z.gtb_ltb. apply Z.ltb_ge. unfold MAX_PDF_SIZE. lia. }
  assert (Hc : forall w1, convert_pdf_to_images env pdf_bytes w1
                          = (Ok [], emit (EvOpen pdf_bytes) w1)).
  { intros w1. unfold convert_pdf_to_images, try_except.
    rewrite (convert_pdf_to_images_open _ _ _ _ Hopen), Hzero. reflexivity. }
  assert (Hrun : fst (convert_pdf env sched url w)
                 = Raise (HTTPException 500 "No images were generated." None)).
  { unfold convert_pdf, bind. rewrite Hd, Hc. reflexivity. }
  rewrite Hd, Hc, Hrun. auto.
Qed.

Lemma zero_page_document_reaches_the_guard_witness :
  fst (download_pdf
         (Sample.env (Sample.response 200 "application/pdf" Sample.pdf)
                     (Sample.document 0) None)
         Sample.url initial_world) = Ok Sample.pdf /\
  fst (convert_pdf_to_images
         (Sample.env (Sample.response 200 "application/pdf" Sample.pdf)
                     (Sample.document 0) None)
         Sample.pdf
         (snd (download_pdf
                 (Sample.env (Sample.response 200 "application/pdf" Sample.pdf)
                             (Sample.document 0) None)
                 Sample.url initial_world))) = Ok [] /\
  fst (convert_pdf
         (Sample.env (Sample.response 200 "application/pdf" Sample.pdf)
                     (Sample.document 0) None)
         [] Sample.url initial_world)
    = Raise (HTTPException 500 "No images were generated." None) /\
  response_status
    (fst (convert_pdf
            (Sample.env (Sample.response 200 "application/pdf" Sample.pdf)
                        (Sample.document 0) None)
            [] Sample.url initial_world)) = 500.
Proof.
  apply (zero_page_document_reaches_the_guard _ [] Sample.url initial_world
           (Sample.response 200 "application/pdf" Sample.pdf) Sample.pdf
           (Sample.document 0)).
  - reflexivity.
  - reflexivity.
  - vm_compute. reflexivity.
  - reflexivity.
  - vm_compute. discriminate.
  - reflexivity.
  - reflexivity.
Defined.

(** C9. [convert_pdf] never returns an empty list of links: whenever the
    fetch and the rasterizer succeed and the gathered list of links is
    empty, it raises "No images were generated." (status 500). *)
Theorem empty_link_list_is_an_error env sched url w :
  fst (convert_pdf env sched url w) <> Ok [] /\
  (forall pdf_bytes w1 image_bytes_list w2 w3,
      download_pdf env url w = (Ok pdf_bytes, w1) ->
      convert_pdf_to_images env pdf_bytes w1 = (Ok image_bytes_list, w2) ->
      gather sched (upload_tasks env image_bytes_list) w2 = (Ok [], w3) ->
      convert_pdf env sched url w
        = (Raise (HTTPException 500 "No images were generated." None), w3)).
Proof.
  split.
  - unfold convert_pdf, bind.
    destruct (download_pdf env url w) as [[pdf_bytes|e] w1]; [|discriminate].
    destruct (convert_pdf_to_images env pdf_bytes w1) as [[images|e] w2]; [|discriminate].
    destruct (gather sched (upload_tasks env images) w2) as [[[|u urls]|e] w3];
      discriminate.
  - intros pdf_bytes w1 images w2 w3 Hd Hc Hg.
    unfold convert_pdf, bind. rewrite Hd, Hc, Hg. reflexivity.
Qed.

Lemma empty_link_list_is_an_error_witness :
  fst (convert_pdf
         (Sample.env (Sample.response 200 "application/pdf" Sample.pdf)
                     (Sample.document 0) None)
         [] Sample.url initial_world) <> Ok [] /\
  fst (convert_pdf
         (Sample.env (Sample.response 200 "application/pdf" Sample.pdf)
                     (Sample.document 0) None)
         [] Sample.url initial_world)
    = Raise (HTTPException 500 "No images were generated." None).
Proof.
  destruct (empty_link_list_is_an_error
              (Sample.env (Sample.response 200 "application/pdf" Sample.pdf)
                          (Sample.document 0) None)
              [] Sample.url initial_world) as [Hne Hguard].
  split; [exact Hne|].
  rewrite (Hguard Sample.pdf
             (emit EvRead (emit (EvGet Sample.url) initial_world)) []
             (emit (EvOpen Sample.pdf)
                   (emit EvRead (emit (EvGet Sample.url) initial_world)))
             (emit (EvOpen Sample.pdf)
                   (emit EvRead (emit (EvGet Sample.url) initial_world))));
    reflexivity.
Defined.

(** ** Status codes *)

(** C1. At a URL that answers 404, [download_pdf] raises its
    [HTTPException] with status 400 inside the [try] block; the
    [except Exception] clause catches it and raises "Unexpected error
    occurred." with status 500, which is what the endpoint answers. *)
Theorem status_404_is_answered_with_500 :
  fst (convert_pdf
         (Sample.env (Sample.response 404 "application/pdf" Sample.pdf)
                     (Sample.document 1) None)
         [] Sample.url initial_world)
    = Raise (HTTPException 500 "Unexpected error occurred."
               (Some (HTTPException 400 "Failed to download PDF. Status code: 404" None))) /\
  response_status
    (fst (convert_pdf
            (Sample.env (Sample.response 404 "application/pdf" Sample.pdf)
                        (Sample.document 1) None)
            [] Sample.url initial_world)) = 500.
Proof. split; vm_compute; reflexivity. Qed.

(** ** The uploader *)

Lemma upload_image_to_gdrive_unfold env image_bytes filename w :
  upload_image_to_gdrive env image_bytes filename w =
    match files_create_reply env w filename image_bytes with
    | Raise e =>
        (Raise (HTTPException 500 "Error uploading images." (Some e)),
         emit (EvFilesCreate filename) w)
    | Ok file_id =>
        let w1 := snd (files_create env filename [GDRIVE_FOLDER_ID env] "image/png"
                                    image_bytes w) in
        match permissions_create_reply env w1 file_id with
        | Some e =>
            (Raise (HTTPException 500 "Error uploading images." (Some e)),
             emit (EvPermissionsCreate file_id) w1)
        | None =>
            (Ok (shareable_link file_id),
             {| files := alter share file_id (files w1);
                trace := trace w1 ++ [EvPermissionsCreate file_id] |})
        end
    end.
Proof.
  unfold upload_image_to_gdrive, try_except, upload_image_to_gdrive_body, bind,
    files_create, permissions_create, upload_image_to_gdrive_handler, raise, ret.
  destruct (files_create_reply env w filename image_bytes) as [file_id|e];
    [|reflexivity].
  cbn.
  match goal with
  | |- context [permissions_create_reply env ?w1 file_id] =>
      destruct (permissions_create_reply env w1 file_id)
  end; reflexivity.
Qed.

(** C7. Whenever [upload_image_to_gdrive] returns, Drive created an object
    and what is returned is "https://drive.google.com/uc?id=" followed by
    that object's identifier; the object carries the file name, the image
    bytes and type image/png, and is readable by anyone.  The coroutine the
    endpoint builds for the image at 0-based position [idx] uploads it under
    the name "page{idx+1}.png". *)
Theorem upload_link_and_destination_name env :
  (forall image_bytes filename w link,
      fst (upload_image_to_gdrive env image_bytes filename w) = Ok link ->
      exists file_id,
        files_create_reply env w filename image_bytes = Ok file_id /\
        link = "https://drive.google.com/uc?id=" +:+ file_id /\
        files (snd (upload_image_to_gdrive env image_bytes filename w)) !! file_id
          = Some {| name := filename; parents := [GDRIVE_FOLDER_ID env];
                    mimeType := "image/png"; media := image_bytes;
                    anyone_reader := true |}) /\
  (forall image_bytes_list idx image_bytes,
      image_bytes_list !! idx = Some image_bytes ->
      upload_tasks env image_bytes_list !! idx
        = Some (upload_image_to_gdrive env image_bytes
                  ("page" +:+ pretty (idx + 1)%nat +:+ ".png"))).
Proof.
  split.
  - intros image_bytes filename w link. rewrite upload_image_to_gdrive_unfold.
    destruct (files_create_reply env w filename image_bytes) as [file_id|e] eqn:Hc;
      [|simpl; discriminate].
    cbv zeta.
    destruct (permissions_create_reply env _ file_id); [simpl; discriminate|].
    simpl fst. intros [= <-]. exists file_id.
    split; [reflexivity|]. split; [reflexivity|].
    simpl snd. simpl files. unfold files_create. rewrite Hc. simpl.
    rewrite lookup_alter_eq, lookup_insert_eq. reflexivity.
  - intros images idx image Hidx. unfold upload_tasks.
    rewrite list_lookup_imap, Hidx. reflexivity.
Qed.

Lemma upload_link_and_destination_name_witness :
  (exists file_id,
      files_create_reply
        (Sample.env (Sample.response 200 "application/pdf" Sample.pdf)
                    (Sample.document 1) None)
        initial_world "page1.png" Sample.png = Ok file_id /\
      "https://drive.google.com/uc?id=0" = "https://drive.google.com/uc?id=" +:+ file_id /\
      files (snd (upload_image_to_gdrive
                    (Sample.env (Sample.response 200 "application/pdf" Sample.pdf)
                                (Sample.document 1) None)
                    Sample.png "page1.png" initial_world)) !! file_id
        = Some {| name := "page1.png"; parents := [Some "folder"];
                  mimeType := "image/png"; media := Sample.png;
                  anyone_reader := true |}) /\
  upload_tasks
    (Sample.env (Sample.response 200 "application/pdf" Sample.pdf)
                (Sample.document 1) None)
    [Sample.png] !! 0%nat
  = Some (upload_image_to_gdrive
            (Sample.env (Sample.response 200 "application/pdf" Sample.pdf)
                        (Sample.document 1) None)
            Sample.png "page1.png").
Proof.
  destruct (upload_link_and_destination_name
              (Sample.env (Sample.response 200 "application/pdf" Sample.pdf)
                          (Sample.document 1) None)) as [Hlink Hname].
  split.
  - apply (Hlink Sample.png "page1.png" initial_world). vm_compute. reflexivity.
  - apply (Hname [Sample.png] 0%nat Sample.png). reflexivity.
Defined.

(** C8. When Drive creates the object and then refuses the permission
    request, [upload_image_to_gdrive] raises "Error uploading images."
    (status 500, the refusal as context).  The calls made are the create
    and the permission request and nothing after them, and Drive still
    holds the object, with the name and bytes given and not readable by
    anyone. *)
Theorem failed_grant_leaves_object_private env image_bytes filename w file_id e :
  files_create_reply env w filename image_bytes = Ok file_id ->
  permissions_create_reply env
    (snd (files_create env filename [GDRIVE_FOLDER_ID env] "image/png" image_bytes w))
    file_id = Some e ->
  fst (upload_image_to_gdrive env image_bytes filename w)
    = Raise (HTTPException 500 "Error uploading images." (Some e)) /\
  files (snd (upload_image_to_gdrive env image_bytes filename w)) !! file_id
    = Some {| name := filename; parents := [GDRIVE_FOLDER_ID env];
              mimeType := "image/png"; media := image_bytes;
              anyone_reader := false |} /\
  trace (snd (upload_image_to_gdrive env image_bytes filename w))
    = trace w ++ [EvFilesCreate filename; EvPermissionsCreate file_id].
Proof.
  intros Hcreate Hgrant. rewrite upload_image_to_gdrive_unfold, Hcreate.
  cbv zeta. rewrite Hgrant. simpl fst. simpl snd.
  split; [reflexivity|].
  unfold files_create. rewrite Hcreate. simpl.
  split; [apply lookup_insert_eq | rewrite <- app_assoc; reflexivity].
Qed.

Lemma failed_grant_leaves_object_private_witness :
  fst (upload_image_to_gdrive
         (Sample.env (Sample.response 200 "application/pdf" Sample.pdf)
                     (Sample.document 1) (Some (OtherException "HttpError 403")))
         Sample.png "page1.png" initial_world)
    = Raise (HTTPException 500 "Error uploading images."
               (Some (OtherException "HttpError 403"))) /\
  files (snd (upload_image_to_gdrive
                (Sample.env (Sample.response 200 "application/pdf" Sample.pdf)
                            (Sample.document 1) (Some (OtherException "HttpError 403")))
                Sample.png "page1.png" initial_world)) !! "0"
    = Some {| name := "page1.png"; parents := [Some "folder"];
              mimeType := "image/png"; media := Sample.png;
              anyone_reader := false |} /\
  trace (snd (upload_image_to_gdrive
                (Sample.env (Sample.response 200 "application/pdf" Sample.pdf)
                            (Sample.document 1) (Some (OtherException "HttpError 403")))
                Sample.png "page1.png" initial_world))
    = trace initial_world ++ [EvFilesCreate "page1.png"; EvPermissionsCreate "0"].
Proof.
  apply (failed_grant_leaves_object_private
           (Sample.env (Sample.response 200 "application/pdf" Sample.pdf)
                       (Sample.document 1) (Some (OtherException "HttpError 403")))
           Sample.png "page1.png" initial_world "0" (OtherException "HttpError 403")).
  - vm_compute. reflexivity.
  - reflexivity.
Defined.

(** ** [asyncio.gather] *)

Section GatherFacts.
Context {A : Type}.
Implicit Types (tasks : list (M A)) (h : list (nat * result A)).
Implicit Types (st : GatherState A) (slots : list (option (result A))).

Lemma done_callback_children n k r st :
  children (done_callback n k r st) = <[k := Some r]> (children st).
Proof. unfold done_callback. destruct (outer st), r; reflexivity. Qed.

Lemma done_callback_nfinished n k r st :
  nfinished (done_callback n k r st) = S (nfinished st).
Proof. unfold done_callback. destruct (outer st), r; reflexivity. Qed.

(** Once [outer] holds a result it keeps it. *)
Lemma done_callback_outer_Some n k r st o :
  outer st = Some o -> outer (done_callback n k r st) = Some o.
Proof. intros H. unfold done_callback. rewrite H. reflexivity. Qed.

Lemma feed_snoc n st h k r :
  feed n st (h ++ [(k, r)]) = done_callback n k r (feed n st h).
Proof. unfold feed. rewrite foldl_snoc. reflexivity. Qed.

Lemma fill_snoc slots h k r :
  fill slots (h ++ [(k, r)]) = <[k := Some r]> (fill slots h).
Proof. unfold fill. rewrite foldl_snoc. reflexivity. Qed.

Lemma feed_children n st h : children (feed n st h) = fill (children st) h.
Proof.
  induction h as [|[k r] h IH] using rev_ind; [reflexivity|].
  rewrite feed_snoc, fill_snoc, done_callback_children, IH. reflexivity.
Qed.

Lemma feed_nfinished n st h :
  nfinished (feed n st h) = (nfinished st + length h)%nat.
Proof.
  induction h as [|[k r] h IH] using rev_ind; [simpl; lia|].
  rewrite feed_snoc, done_callback_nfinished, IH, length_app. simpl. lia.
Qed.

Lemma fill_length slots h : length (fill slots h) = length slots.
Proof.
  induction h as [|[k r] h IH] using rev_ind; [reflexivity|].
  rewrite fill_snoc, length_insert. exact IH.
Qed.

(** A filled slot holds what some finished child returned. *)
Lemma fill_lookup_inv slots h i r :
  fill slots h !! i = Some (Some r) ->
  (i, r) ∈ h \/ slots !! i = Some (Some r).
Proof.
  induction h as [|[k r'] h IH] using rev_ind; [right; assumption|].
  rewrite fill_snoc, list_lookup_insert. intros Hl.
  destruct (decide (k = i /\ (k < length (fill slots h))%nat)) as [[-> _]|_].
  - injection Hl as [= ->]. left. apply elem_of_app. right.
    apply list_elem_of_singleton. reflexivity.
  - destruct (IH Hl) as [Hin|Hs]; [left|right; exact Hs].
    apply elem_of_app. left. exact Hin.
Qed.

(** With every child finishing once, a slot holds what its child returned. *)
Lemma fill_lookup_in slots h i r :
  NoDup h.*1 -> (i, r) ∈ h -> (i < length slots)%nat ->
  fill slots h !! i = Some (Some r).
Proof.
  induction h as [|[k r'] h IH] using rev_ind.
  - intros _ Hin. apply elem_of_nil in Hin. contradiction.
  - rewrite fmap_app. simpl. intros Hnd Hin Hlt.
    apply NoDup_app in Hnd as (Hnd & Hdisj & _).
    rewrite fill_snoc. apply elem_of_app in Hin as [Hin|Hin].
    + rewrite list_lookup_insert_ne; [apply IH; assumption|].
      intros ->. apply (Hdisj i).
      * apply (list_elem_of_fmap_2 fst _ _ Hin).
      * apply list_elem_of_singleton. reflexivity.
    + apply list_elem_of_singleton in Hin. injection Hin as [= -> ->].
      apply list_lookup_insert_eq. rewrite fill_length. exact Hlt.
Qed.

(** [outer] holds a list only once every child is counted, and the list
    is read off the slots at that moment. *)
Lemma feed_outer_Ok n h xs :
  outer (feed n (gather_init n) h) = Some (Ok xs) ->
  exists h1 h2,
    h = h1 ++ h2 /\ length h1 = n /\
    mapM fut_result (fill (replicate n None) h1) = Some xs.
Proof.
  induction h as [|[k r] h IH] using rev_ind; [discriminate|].
  rewrite feed_snoc. unfold done_callback at 1.
  destruct (outer (feed n (gather_init n) h)) as [o|] eqn:Ho.
  - simpl. intros [= ->]. destruct (IH eq_refl) as (h1 & h2 & -> & Hlen & Hm).
    exists h1, (h2 ++ [(k, r)]). rewrite <- app_assoc. auto.
  - destruct r as [a|e]; cbn [outer]; [|discriminate].
    rewrite feed_nfinished, feed_children. cbn [gather_init nfinished children].
    rewrite Nat.add_0_l.
    destruct (S (length h) =? n)%nat eqn:Hn; [|discriminate].
    apply Nat.eqb_eq in Hn.
    destruct (mapM fut_result (<[k:=Some (Ok a)]> (fill (replicate n None) h)))
      as [ys|] eqn:Hm; [|discriminate].
    simpl. intros [= ->].
    exists (h ++ [(k, Ok a)]), []. rewrite app_nil_r, fill_snoc, length_app.
    simpl. split; [reflexivity|]. split; [lia | exact Hm].
Qed.

(** An exception in [outer] is one that a child raised. *)
Lemma feed_outer_Raise n h e :
  outer (feed n (gather_init n) h) = Some (Raise e) ->
  exists k, (k, Raise e) ∈ h.
Proof.
  induction h as [|[k r] h IH] using rev_ind; [discriminate|].
  rewrite feed_snoc. unfold done_callback at 1.
  destruct (outer (feed n (gather_init n) h)) as [o|] eqn:Ho.
  - simpl. intros [= ->]. destruct (IH eq_refl) as [k' Hk'].
    exists k'. apply elem_of_app. left. exact Hk'.
  - destruct r as [a|e']; cbn [outer].
    + destruct (_ =? _)%nat; [|discriminate].
      destruct (mapM _ _); discriminate.
    + intros [= ->]. exists k. apply elem_of_app. right.
      apply list_elem_of_singleton. reflexivity.
Qed.

(** While [outer] is pending, no child has raised. *)
Lemma feed_outer_None n st h :
  outer (feed n st h) = None ->
  forall k r, (k, r) ∈ h -> is_Ok r = true.
Proof.
  induction h as [|[k r] h IH] using rev_ind.
  - intros _ k r Hin. apply elem_of_nil in Hin. contradiction.
  - rewrite feed_snoc. unfold done_callback at 1.
    destruct (outer (feed n st h)) as [o|] eqn:Ho; [discriminate|].
    destruct r as [a|e]; cbn [outer]; [|discriminate].
    intros _ k' r' Hin. apply elem_of_app in Hin as [Hin|Hin].
    + apply (IH eq_refl k' r' Hin).
    + apply list_elem_of_singleton in Hin. injection Hin as [= -> ->]. reflexivity.
Qed.

Lemma run_children_feed n order tasks :
  forall st w,
    fst (run_children n order tasks st w) = feed n st (completions order tasks w).
Proof.
  induction order as [|k rest IH]; intros st w; simpl; [reflexivity|].
  destruct (tasks !! k) as [task|]; [|apply IH].
  destruct (task w) as [r w']. rewrite IH. reflexivity.
Qed.

(** An entry of the history is what the child with that index returned
    when it ran. *)
Lemma completions_task order tasks :
  forall w k r,
    (k, r) ∈ completions order tasks w ->
    exists (task : M A) w0, tasks !! k = Some task /\ fst (task w0) = r.
Proof.
  induction order as [|k' rest IH]; intros w k r; simpl.
  - intros Hin. apply elem_of_nil in Hin. contradiction.
  - destruct (tasks !! k') as [task|] eqn:Hk'; [|apply IH].
    destruct (task w) as [r' w'] eqn:Hrun. intros Hin.
    apply elem_of_cons in Hin as [[= -> ->]|Hin]; [|eapply IH; exact Hin].
    exists task, w. rewrite Hrun. auto.
Qed.

Lemma completions_keys order tasks :
  (forall k, k ∈ order -> (k < length tasks)%nat) ->
  forall w, (completions order tasks w).*1 = order.
Proof.
  induction order as [|k rest IH]; intros Hlt w; simpl; [reflexivity|].
  destruct (tasks !! k) as [task|] eqn:Htask.
  2:{ apply lookup_ge_None in Htask.
      pose proof (Hlt k (list_elem_of_here _ _)) as Hk.
      exfalso. exact (Nat.lt_irrefl _ (Nat.lt_le_trans _ _ _ Hk Htask)). }
  destruct (task w) as [r w']. simpl. f_equal.
  apply IH. intros k' Hk'. apply Hlt. apply list_elem_of_further, Hk'.
Qed.

(** The order in which the children finish names every child once. *)
Lemma elem_of_completion_order n sched k :
  k ∈ completion_order n sched <-> (k < n)%nat.
Proof.
  unfold completion_order. split.
  - intros Hin. apply elem_of_app in Hin as [Hin|Hin].
    + apply elem_of_remove_dups, list_elem_of_filter in Hin as [Hk _]. exact Hk.
    + apply list_elem_of_filter in Hin as [_ Hin]. apply elem_of_seq in Hin. lia.
  - intros Hk. apply elem_of_app.
    destruct (decide (k ∈ remove_dups (filter (fun k => (k < n)%nat) sched)))
      as [Hin|Hni]; [left; exact Hin|].
    right. apply list_elem_of_filter. split; [exact Hni|].
    apply elem_of_seq. lia.
Qed.

Lemma NoDup_completion_order n sched : NoDup (completion_order n sched).
Proof.
  unfold completion_order. apply NoDup_app. split; [apply NoDup_remove_dups|].
  split.
  - intros k Hin Hin'. apply list_elem_of_filter in Hin' as [Hni _]. exact (Hni Hin).
  - apply NoDup_filter, NoDup_seq.
Qed.

Lemma completion_order_Permutation n sched :
  completion_order n sched ≡ₚ seq 0 n.
Proof.
  apply NoDup_Permutation; [apply NoDup_completion_order | apply NoDup_seq |].
  intros k. rewrite elem_of_completion_order, elem_of_seq. lia.
Qed.

(** A schedule that already names every child once is followed as it is. *)
Lemma completion_order_id n sched :
  NoDup sched -> (forall k, k ∈ sched <-> (k < n)%nat) ->
  completion_order n sched = sched.
Proof.
  intros Hnd Hall. unfold completion_order.
  assert (Hfilter : forall l : list nat,
             (forall k, k ∈ l -> (k < n)%nat) -> filter (fun k => (k < n)%nat) l = l).
  { intros l. induction l as [|k l IH]; intros Hl; [reflexivity|].
    rewrite filter_cons_True by (apply Hl, list_elem_of_here).
    f_equal. apply IH. intros k' Hk'. apply Hl, list_elem_of_further, Hk'. }
  rewrite Hfilter by (intros k Hk; apply Hall, Hk).
  assert (Hrd : forall l : list nat, NoDup l -> remove_dups l = l).
  { intros l Hl. induction Hl as [|k l Hk Hl IH]; [reflexivity|].
    simpl. destruct (decide_rel elem_of k l); [contradiction|]. f_equal. exact IH. }
  rewrite Hrd by exact Hnd.
  assert (Hnone : filter (fun k => k ∉ sched) (seq 0 n) = []).
  { apply elem_of_nil_inv. intros k Hk. apply list_elem_of_filter in Hk as [Hni Hk].
    apply elem_of_seq in Hk. apply Hni, Hall. lia. }
  rewrite Hnone. apply app_nil_r.
Qed.

Lemma completions_length n sched tasks w :
  n = length tasks ->
  (completions (completion_order n sched) tasks w).*1 = completion_order n sched /\
  length (completions (completion_order n sched) tasks w) = n.
Proof.
  intros ->.
  assert (Hkeys : (completions (completion_order (length tasks) sched) tasks w).*1
                  = completion_order (length tasks) sched).
  { apply completions_keys. intros k Hk. apply elem_of_completion_order in Hk. exact Hk. }
  split; [exact Hkeys|].
  rewrite <- (length_fmap fst), Hkeys, (completion_order_Permutation _ sched).
  apply length_seq.
Qed.

(** Once every child has finished, [outer] holds a result. *)
Lemma feed_outer_filled n h :
  (0 < n)%nat -> h.*1 ≡ₚ seq 0 n ->
  is_Some (outer (feed n (gather_init n) h)).
Proof.
  intros Hpos Hperm.
  assert (Hlen : length h = n).
  { rewrite <- (length_fmap fst), Hperm. apply length_seq. }
  assert (Hnd : NoDup h.*1) by (rewrite Hperm; apply NoDup_seq).
  destruct h as [|[k r] h _] using rev_ind; [simpl in Hlen; lia|].
  rewrite length_app in Hlen. simpl in Hlen.
  rewrite feed_snoc. unfold done_callback at 1.
  destruct (outer (feed n (gather_init n) h)) as [o|] eqn:Ho; [eexists; reflexivity|].
  destruct r as [a|e]; cbn [outer]; [|eexists; reflexivity].
  rewrite feed_nfinished, feed_children. cbn [gather_init nfinished children].
  rewrite Nat.add_0_l.
  replace (S (length h) =? n)%nat with true by (symmetry; apply Nat.eqb_eq; lia).
  rewrite <- fill_snoc.
  destruct (mapM_is_Some_2 fut_result (fill (replicate n None) (h ++ [(k, Ok a)])))
    as [xs Hxs]; [|rewrite Hxs; eexists; reflexivity].
  apply Forall_lookup_2. intros i slot Hslot.
  assert (Hi : (i < n)%nat).
  { apply lookup_lt_Some in Hslot. rewrite fill_length, length_replicate in Hslot.
    exact Hslot. }
  assert (Hin : i ∈ (h ++ [(k, Ok a)]).*1).
  { rewrite Hperm. apply elem_of_seq. lia. }
  apply list_elem_of_fmap in Hin as ([i' r'] & Hfst & Hin). simpl in Hfst. subst i'.
  rewrite (fill_lookup_in _ _ i r' Hnd Hin) in Hslot
    by (rewrite length_replicate; exact Hi).
  injection Hslot as [= <-].
  assert (Hok : is_Ok r' = true).
  { apply elem_of_app in Hin as [Hin|Hin].
    - exact (feed_outer_None _ _ _ Ho _ _ Hin).
    - apply list_elem_of_singleton in Hin. injection Hin as [= _ ->]. reflexivity. }
  destruct r' as [b|e]; [eexists; reflexivity | discriminate].
Qed.

Lemma gather_unfold sched tasks w :
  tasks <> [] ->
  fst (gather sched tasks w) =
    match outer (feed (length tasks) (gather_init (length tasks))
                      (completions (completion_order (length tasks) sched) tasks w)) with
    | Some r => r
    | None => Raise (OtherException "InvalidStateError")
    end.
Proof.
  intros Hne. rewrite <- run_children_feed.
  destruct tasks as [|task tasks]; [contradiction|].
  unfold gather.
  destruct (run_children (length (task :: tasks))
              (completion_order (length (task :: tasks)) sched) (task :: tasks)
              (gather_init (length (task :: tasks))) w) as [st w'].
  reflexivity.
Qed.

(** The caller of [gather] is always resumed with a result of [outer]. *)
Lemma gather_outer_filled sched tasks w :
  tasks <> [] ->
  is_Some (outer (fst (run_children (length tasks)
                         (completion_order (length tasks) sched) tasks
                         (gather_init (length tasks)) w))).
Proof.
  intros Hne. rewrite run_children_feed. apply feed_outer_filled.
  - destruct tasks; [contradiction | simpl; lia].
  - destruct (completions_length (length tasks) sched tasks w eq_refl) as [-> _].
    apply completion_order_Permutation.
Qed.

(** The list [gather] returns has one entry per awaitable, and entry [i]
    is what child [i] returned, whatever the order of completion. *)
Lemma gather_by_index sched tasks w xs :
  fst (gather sched tasks w) = Ok xs ->
  length xs = length tasks /\
  forall i x,
    xs !! i = Some x <->
    (i, Ok x) ∈ completions (completion_order (length tasks) sched) tasks w.
Proof.
  destruct (decide (tasks = [])) as [->|Hne].
  - simpl. intros [= <-]. split; [reflexivity|]. intros i x. split.
    + intros Hl. rewrite lookup_nil in Hl. discriminate.
    + intros Hin. apply completions_task in Hin as (task & w0 & Hl & _).
      rewrite lookup_nil in Hl. discriminate.
  - rewrite (gather_unfold _ _ _ Hne).
    destruct (completions_length (length tasks) sched tasks w eq_refl)
      as [Hkeys Hlen].
    set (h := completions (completion_order (length tasks) sched) tasks w) in *.
    destruct (outer (feed (length tasks) (gather_init (length tasks)) h))
      as [o|] eqn:Ho; [|discriminate].
    intros ->. apply feed_outer_Ok in Ho as (h1 & h2 & Hh & Hlen1 & Hm).
    assert (h2 = []) as ->.
    { apply nil_length_inv. rewrite Hh, length_app in Hlen. lia. }
    rewrite app_nil_r in Hh. subst h1.
    apply mapM_Some in Hm.
    pose proof (Forall2_length _ _ _ Hm) as Hlenxs.
    rewrite fill_length, length_replicate in Hlenxs.
    split; [symmetry; exact Hlenxs|].
    intros i x. split.
    + intros Hx.
      destruct (Forall2_lookup_r _ _ _ i x Hm Hx) as (slot & Hslot & Hres).
      destruct slot as [[y|e]|]; try discriminate. injection Hres as [= ->].
      apply fill_lookup_inv in Hslot as [Hin|Hinit]; [exact Hin|].
      apply lookup_replicate in Hinit as [Habs _]. discriminate.
    + intros Hin.
      assert (Hi : (i < length tasks)%nat).
      { apply (elem_of_completion_order _ sched). rewrite <- Hkeys.
        apply (list_elem_of_fmap_2 fst _ _ Hin). }
      assert (Hnd : NoDup h.*1) by (rewrite Hkeys; apply NoDup_completion_order).
      pose proof (fill_lookup_in (replicate (length tasks) None) h i (Ok x) Hnd Hin)
        as Hslot.
      rewrite length_replicate in Hslot. specialize (Hslot Hi).
      destruct (Forall2_lookup_l _ _ _ i _ Hm Hslot) as (y & Hy & Hres).
      injection Hres as [= ->]. exact Hy.
Qed.

(** When no child raises, [gather] returns a list. *)
Lemma gather_total sched tasks w :
  (forall k r,
      (k, r) ∈ completions (completion_order (length tasks) sched) tasks w ->
      is_Ok r = true) ->
  is_Ok (fst (gather sched tasks w)) = true.
Proof.
  intros Hall. destruct (decide (tasks = [])) as [->|Hne]; [reflexivity|].
  pose proof (gather_outer_filled sched tasks w Hne) as [o Ho].
  rewrite (gather_unfold _ _ _ Hne).
  rewrite run_children_feed in Ho. rewrite Ho.
  destruct o as [xs|e]; [reflexivity|].
  apply feed_outer_Raise in Ho as [k Hk]. apply (Hall k (Raise e) Hk).
Qed.

End GatherFacts.

(** ** The uploads of one request *)

(** ** The diagnostic calls *)

Lemma convert_pdf_to_images_logged_plain diag env pdf_bytes w :
  diag "Before Conversion" = None ->
  diag "After Conversion" = None ->
  convert_pdf_to_images_logged diag env pdf_bytes w
  = convert_pdf_to_images env pdf_bytes w.
Proof.
  intros Hbefore Hafter.
  unfold convert_pdf_to_images_logged, convert_pdf_to_images, try_except, bind,
    log_resource_usage, ret.
  rewrite Hbefore, Hafter.
  destruct (convert_pdf_to_images_body env pdf_bytes w) as [[images|e] w'];
    reflexivity.
Qed.

(** A diagnostic call either changes nothing or turns the outcome into
    the rasterizer's own failure. *)
Lemma convert_pdf_to_images_logged_cases diag env pdf_bytes w :
  convert_pdf_to_images_logged diag env pdf_bytes w
  = convert_pdf_to_images env pdf_bytes w \/
  exists cause w',
    convert_pdf_to_images_logged diag env pdf_bytes w
    = (Raise (HTTPException 500 "Error converting PDF to images." (Some cause)), w') /\
    (w' = w \/ w' = snd (convert_pdf_to_images env pdf_bytes w)).
Proof.
  unfold convert_pdf_to_images_logged, convert_pdf_to_images, try_except, bind,
    log_resource_usage, ret.
  destruct (diag "Before Conversion") as [e|];
    [right; eexists _, _; split; [reflexivity | left; reflexivity]|].
  destruct (convert_pdf_to_images_body env pdf_bytes w) as [[images|e] w'];
    [|left; reflexivity].
  destruct (diag "After Conversion") as [e|]; [|left; reflexivity].
  right. eexists _, _. split; [reflexivity | right; reflexivity].
Qed.

Lemma convert_pdf_logged_plain diag env sched url w :
  diag "Before Conversion" = None ->
  diag "After Conversion" = None ->
  convert_pdf_logged diag env sched url w = convert_pdf env sched url w.
Proof.
  intros Hbefore Hafter. unfold convert_pdf_logged, convert_pdf, bind.
  destruct (download_pdf env url w) as [[pdf_bytes|e] w1]; [|reflexivity].
  rewrite (convert_pdf_to_images_logged_plain _ _ _ _ Hbefore Hafter). reflexivity.
Qed.

Lemma convert_pdf_logged_cases diag env sched url w :
  convert_pdf_logged diag env sched url w = convert_pdf env sched url w \/
  exists cause w',
    convert_pdf_logged diag env sched url w
    = (Raise (HTTPException 500 "Error converting PDF to images." (Some cause)), w').
Proof.
  unfold convert_pdf_logged, convert_pdf, bind.
  destruct (download_pdf env url w) as [[pdf_bytes|e] w1]; [|left; reflexivity].
  destruct (convert_pdf_to_images_logged_cases diag env pdf_bytes w1)
    as [->|(cause & w' & -> & _)]; [left; reflexivity|].
  right. exists cause, w'. reflexivity.
Qed.

(** An answer of the handler with the diagnostic calls in place is an
    answer of the handler without them. *)
Lemma convert_pdf_logged_Ok diag env sched url w image_urls :
  fst (convert_pdf_logged diag env sched url w) = Ok image_urls ->
  convert_pdf_logged diag env sched url w = convert_pdf env sched url w.
Proof.
  destruct (convert_pdf_logged_cases diag env sched url w)
    as [->|(cause & w' & ->)]; [reflexivity | simpl; discriminate].
Qed.

Lemma upload_tasks_length env image_bytes_list :
  length (upload_tasks env image_bytes_list) = length image_bytes_list.
Proof. apply length_imap. Qed.

(** C2. For every request and every order in which the loop lets the
    uploads finish: when [convert_pdf] returns a list of links, the fetch
    and the rasterizer succeeded, the list has one link per page image the
    rasterizer produced (it is the list [gather] returned for the uploads
    of those images), and the link at position [i] is the one that the
    upload with index [i] returned in this run ([completions] is the run's
    history of the uploads, in order of completion).  The upload with
    index [k] is the upload of image [k] under the name "page{k+1}.png".
    Every permutation of the indices is an order the loop may follow, and
    [convert_pdf] does return the list whenever there is a page image and
    no upload raises.  With the rasterizer's two diagnostic calls in place
    ([convert_pdf_logged]) a returned list is the list returned without
    them, so all of this holds of it as well. *)
Theorem convert_pdf_returns_links_in_page_order env sched url w :
  (forall image_urls,
      fst (convert_pdf env sched url w) = Ok image_urls ->
      exists pdf_bytes image_bytes_list,
        fst (download_pdf env url w) = Ok pdf_bytes /\
        fst (convert_pdf_to_images env pdf_bytes (snd (download_pdf env url w)))
          = Ok image_bytes_list /\
        fst (gather sched (upload_tasks env image_bytes_list)
               (snd (convert_pdf_to_images env pdf_bytes
                       (snd (download_pdf env url w)))))
          = Ok image_urls /\
        length image_urls = length image_bytes_list /\
        forall i link,
          image_urls !! i = Some link <->
          (i, Ok link) ∈
            completions (completion_order (length image_bytes_list) sched)
              (upload_tasks env image_bytes_list)
              (snd (convert_pdf_to_images env pdf_bytes
                      (snd (download_pdf env url w))))) /\
  (forall image_bytes_list w2 k r,
      (k, r) ∈ completions (completion_order (length image_bytes_list) sched)
                           (upload_tasks env image_bytes_list) w2 ->
      exists image_bytes w0,
        image_bytes_list !! k = Some image_bytes /\
        r = fst (upload_image_to_gdrive env image_bytes
                   ("page" +:+ pretty (k + 1)%nat +:+ ".png") w0)) /\
  (forall n order, order ≡ₚ seq 0 n -> completion_order n order = order) /\
  (forall pdf_bytes image_bytes_list,
      fst (download_pdf env url w) = Ok pdf_bytes ->
      fst (convert_pdf_to_images env pdf_bytes (snd (download_pdf env url w)))
        = Ok image_bytes_list ->
      image_bytes_list <> [] ->
      (forall k r,
          (k, r) ∈
            completions (completion_order (length image_bytes_list) sched)
              (upload_tasks env image_bytes_list)
              (snd (convert_pdf_to_images env pdf_bytes
                      (snd (download_pdf env url w)))) ->
          is_Ok r = true) ->
      is_Ok (fst (convert_pdf env sched url w)) = true) /\
  (forall diag image_urls,
      fst (convert_pdf_logged diag env sched url w) = Ok image_urls ->
      fst (convert_pdf env sched url w) = Ok image_urls).
Proof.
  split; [|split; [|split; [|split]]].
  - intros image_urls. unfold convert_pdf, bind.
    destruct (download_pdf env url w) as [[pdf_bytes|e] w1]; [|simpl; discriminate].
    cbn [fst snd].
    destruct (convert_pdf_to_images env pdf_bytes w1) as [[images|e] w2] eqn:Hc;
      [|simpl; discriminate].
    pose proof (gather_by_index sched (upload_tasks env images) w2) as Hidx.
    destruct (gather sched (upload_tasks env images) w2) as [[urls|e] w3] eqn:Hg;
      [|simpl; discriminate].
    destruct urls as [|u urls]; simpl; [discriminate|]. intros [= <-].
    exists pdf_bytes, images. rewrite Hc. cbn [fst snd]. rewrite Hg. cbn [fst].
    destruct (Hidx (u :: urls) eq_refl) as [Hlen Hlinks].
    rewrite upload_tasks_length in Hlen, Hlinks.
    split; [reflexivity|]. split; [reflexivity|]. split; [reflexivity|].
    split; assumption.
  - intros images w2 k r Hin.
    apply completions_task in Hin as (task & w0 & Htask & <-).
    unfold upload_tasks in Htask. rewrite list_lookup_imap in Htask.
    destruct (images !! k) as [image_bytes|]; [|discriminate].
    injection Htask as [= <-]. exists image_bytes, w0. auto.
  - intros n order Hperm. apply completion_order_id.
    + rewrite Hperm. apply NoDup_seq.
    + intros k. rewrite Hperm, elem_of_seq. lia.
  - intros pdf_bytes images. unfold convert_pdf, bind.
    destruct (download_pdf env url w) as [[pdf_bytes'|e] w1]; [|simpl; discriminate].
    cbn [fst snd]. intros [= ->].
    destruct (convert_pdf_to_images env pdf_bytes w1) as [[images'|e] w2];
      [|simpl; discriminate].
    cbn [fst snd]. intros [= ->] Hne Hall.
    pose proof (gather_total sched (upload_tasks env images) w2) as Htot.
    pose proof (gather_by_index sched (upload_tasks env images) w2) as Hidx.
    rewrite upload_tasks_length in Htot, Hidx. specialize (Htot Hall).
    destruct (gather sched (upload_tasks env images) w2) as [[urls|e] w3];
      [|discriminate].
    destruct (Hidx urls eq_refl) as [Hlen _].
    destruct urls as [|u urls]; [|reflexivity].
    destruct images; [contradiction | discriminate].
  - intros diag image_urls Hok.
    rewrite <- (convert_pdf_logged_Ok _ _ _ _ _ _ Hok). exact Hok.
Qed.

Lemma convert_pdf_returns_links_in_page_order_witness :
  exists pdf_bytes image_bytes_list,
    fst (download_pdf
           (Sample.env (Sample.response 200 "application/pdf" Sample.pdf)
                       (Sample.document 2) None)
           Sample.url initial_world) = Ok pdf_bytes /\
    fst (convert_pdf_to_images
           (Sample.env (Sample.response 200 "application/pdf" Sample.pdf)
                       (Sample.document 2) None)
           pdf_bytes
           (snd (download_pdf
                   (Sample.env (Sample.response 200 "application/pdf" Sample.pdf)
                               (Sample.document 2) None)
                   Sample.url initial_world)))
      = Ok image_bytes_list /\
    fst (gather [1; 0]%nat
           (upload_tasks
              (Sample.env (Sample.response 200 "application/pdf" Sample.pdf)
                          (Sample.document 2) None)
              image_bytes_list)
           (snd (convert_pdf_to_images
                   (Sample.env (Sample.response 200 "application/pdf" Sample.pdf)
                               (Sample.document 2) None)
                   pdf_bytes
                   (snd (download_pdf
                           (Sample.env (Sample.response 200 "application/pdf" Sample.pdf)
                                       (Sample.document 2) None)
                           Sample.url initial_world)))))
      = Ok ["https://drive.google.com/uc?id=1"; "https://drive.google.com/uc?id=0"] /\
    length ["https://drive.google.com/uc?id=1"; "https://drive.google.com/uc?id=0"]
      = length image_bytes_list /\
    forall i link,
      ["https://drive.google.com/uc?id=1"; "https://drive.google.com/uc?id=0"] !! i
        = Some link <->
      (i, Ok link) ∈
        completions (completion_order (length image_bytes_list) [1; 0]%nat)
          (upload_tasks
             (Sample.env (Sample.response 200 "application/pdf" Sample.pdf)
                         (Sample.document 2) None)
             image_bytes_list)
          (snd (convert_pdf_to_images
                  (Sample.env (Sample.response 200 "application/pdf" Sample.pdf)
                              (Sample.document 2) None)
                  pdf_bytes
                  (snd (download_pdf
                          (Sample.env (Sample.response 200 "application/pdf" Sample.pdf)
                                      (Sample.document 2) None)
                          Sample.url initial_world)))).
Proof.
  apply (proj1 (convert_pdf_returns_links_in_page_order
                  (Sample.env (Sample.response 200 "application/pdf" Sample.pdf)
                              (Sample.document 2) None)
                  [1; 0]%nat Sample.url initial_world)).
  vm_compute. reflexivity.
Defined.

(** ** Status codes of the two guarded steps *)

(** X1. Each of the four input checks raises its [HTTPException] inside a
    [try] block whose [except Exception] clause catches it, so the endpoint
    answers 500 for a bad status, a Content-Type without "pdf", a body
    over the size limit and a document over the page limit alike. *)
Theorem input_checks_are_answered_with_500 env sched url w response :
  http_get env url = Ok response ->
  (status response <> 200 ->
   response_status (fst (convert_pdf env sched url w)) = 500) /\
  (status response = 200 ->
   contains "pdf" (lower (headers_get (headers response) "Content-Type" "")) = false ->
   response_status (fst (convert_pdf env sched url w)) = 500) /\
  (forall pdf_bytes,
      status response = 200 ->
      contains "pdf" (lower (headers_get (headers response) "Content-Type" "")) = true ->
      read response = Ok pdf_bytes ->
      ((len pdf_bytes > MAX_PDF_SIZE)%Z ->
       response_status (fst (convert_pdf env sched url w)) = 500) /\
      (forall doc,
          (len pdf_bytes <= MAX_PDF_SIZE)%Z ->
          fitz_open env pdf_bytes = Ok doc ->
          (MAX_PAGE_COUNT < page_count doc)%nat ->
          response_status (fst (convert_pdf env sched url w)) = 500)).
Proof.
  intros Hget. split; [|split].
  - intros Hst.
    pose proof (download_pdf_body_bad_status env url w response Hget Hst) as Hbody.
    apply download_pdf_wraps in Hbody; [|reflexivity].
    rewrite (convert_pdf_download_fails _ sched _ _ _ _ Hbody). reflexivity.
  - intros Hst Hct.
    pose proof (download_pdf_body_bad_content_type env url w response Hget Hst Hct)
      as Hbody.
    apply download_pdf_wraps in Hbody; [|reflexivity].
    rewrite (convert_pdf_download_fails _ sched _ _ _ _ Hbody). reflexivity.
  - intros pdf_bytes Hst Hct Hread.
    pose proof (download_pdf_body_read env url w response Hget Hst Hct) as Hbody.
    rewrite Hread in Hbody. split.
    + intros Hbig.
      replace (len pdf_bytes >? MAX_PDF_SIZE)%Z with true in Hbody
        by (symmetry; apply Z.gtb_lt; lia).
      apply download_pdf_wraps in Hbody; [|reflexivity].
      rewrite (convert_pdf_download_fails _ sched _ _ _ _ Hbody). reflexivity.
    + intros doc Hsmall Hopen Hmany.
      replace (len pdf_bytes >? MAX_PDF_SIZE)%Z with false in Hbody
        by (symmetry; rewrite Z.gtb_ltb; apply Z.ltb_ge; lia).
      unfold convert_pdf, bind, download_pdf, try_except. rewrite Hbody.
      unfold convert_pdf_to_images, try_except.
      rewrite (convert_pdf_to_images_open _ _ _ _ Hopen).
      replace (MAX_PAGE_COUNT <? page_count doc)%nat with true
        by (symmetry; apply Nat.ltb_lt; exact Hmany).
      reflexivity.
Qed.

Lemma input_checks_are_answered_with_500_witness :
  response_status
    (fst (convert_pdf
            (Sample.env (Sample.response 200 "application/pdf" Sample.pdf)
                        (Sample.document 301) None)
            [] Sample.url initial_world)) = 500.
Proof.
  destruct (input_checks_are_answered_with_500
              (Sample.env (Sample.response 200 "application/pdf" Sample.pdf)
                          (Sample.document 301) None)
              [] Sample.url initial_world
              (Sample.response 200 "application/pdf" Sample.pdf) eq_refl)
    as (_ & _ & Hrest).
  destruct (Hrest Sample.pdf eq_refl eq_refl eq_refl) as [_ Hpages].
  apply (Hpages (Sample.document 301)).
  - vm_compute. discriminate.
  - reflexivity.
  - simpl. unfold MAX_PAGE_COUNT. lia.
Defined.

(** X2. A transport error of the GET or of the read is an
    [aiohttp.ClientError]: the first [except] clause takes it and the
    endpoint answers 400.  Any other exception of the two calls is answered
    500. *)
Theorem transport_errors_are_answered_with_400 env sched url w :
  (forall msg,
      http_get env url = Raise (ClientError msg) ->
      response_status (fst (convert_pdf env sched url w)) = 400) /\
  (forall response msg,
      http_get env url = Ok response ->
      status response = 200 ->
      contains "pdf" (lower (headers_get (headers response) "Content-Type" "")) = true ->
      read response = Raise (ClientError msg) ->
      response_status (fst (convert_pdf env sched url w)) = 400) /\
  (forall e,
      http_get env url = Raise e ->
      is_ClientError e = false ->
      response_status (fst (convert_pdf env sched url w)) = 500).
Proof.
  split; [|split].
  - intros msg Hget. unfold convert_pdf, bind, download_pdf, try_except,
      download_pdf_body, bind, call. rewrite Hget. reflexivity.
  - intros response msg Hget Hst Hct Hread.
    unfold convert_pdf, bind, download_pdf, try_except.
    rewrite (download_pdf_body_read _ _ _ _ Hget Hst Hct), Hread. reflexivity.
  - intros e Hget He. unfold convert_pdf, bind, download_pdf, try_except,
      download_pdf_body, bind, call. rewrite Hget.
    unfold download_pdf_handler. rewrite He. reflexivity.
Qed.

Lemma transport_errors_are_answered_with_400_witness :
  response_status
    (fst (convert_pdf
            {| http_get := fun _ => Raise (ClientError "ClientConnectorError");
               fitz_open := fun _ => Ok (Sample.document 1);
               GDRIVE_FOLDER_ID := None;
               files_create_reply := fun _ _ _ => Ok "f";
               permissions_create_reply := fun _ _ => None |}
            [] Sample.url initial_world)) = 400.
Proof.
  apply (proj1 (transport_errors_are_answered_with_400 _ [] Sample.url initial_world)
           "ClientConnectorError").
  reflexivity.
Defined.

(** ** What Drive holds after the uploads *)

Lemma keeps_objects_refl w : keeps_objects w w.
Proof. intros file_id f H. exact H. Qed.

Lemma keeps_objects_trans w1 w2 w3 :
  keeps_objects w1 w2 -> keeps_objects w2 w3 -> keeps_objects w1 w3.
Proof. intros H12 H23 file_id f H. apply H23, H12, H. Qed.

(** An upload touches no object but the one it creates. *)
Lemma upload_keeps_objects env image_bytes filename w :
  fresh_ids env ->
  keeps_objects w (snd (upload_image_to_gdrive env image_bytes filename w)).
Proof.
  intros Hfresh file_id f Hf. rewrite upload_image_to_gdrive_unfold.
  destruct (files_create_reply env w filename image_bytes) as [new_id|e] eqn:Hc;
    [|exact Hf].
  assert (Hne : new_id <> file_id).
  { intros ->. rewrite (Hfresh _ _ _ _ Hc) in Hf. discriminate. }
  cbv zeta. unfold files_create. rewrite Hc. cbn [snd].
  destruct (permissions_create_reply env _ new_id); cbn [snd files emit].
  - rewrite lookup_insert_ne by exact Hne. exact Hf.
  - rewrite lookup_alter_ne by exact Hne. rewrite lookup_insert_ne by exact Hne.
    exact Hf.
Qed.

(** What a successful upload returns and leaves in Drive. *)
Lemma upload_Ok_inv env image_bytes filename w link :
  fst (upload_image_to_gdrive env image_bytes filename w) = Ok link ->
  exists file_id,
    files_create_reply env w filename image_bytes = Ok file_id /\
    link = shareable_link file_id /\
    files (snd (upload_image_to_gdrive env image_bytes filename w)) !! file_id
      = Some {| name := filename; parents := [GDRIVE_FOLDER_ID env];
                mimeType := "image/png"; media := image_bytes;
                anyone_reader := true |}.
Proof.
  rewrite upload_image_to_gdrive_unfold.
  destruct (files_create_reply env w filename image_bytes) as [file_id|e] eqn:Hc;
    [|simpl; discriminate].
  cbv zeta.
  destruct (permissions_create_reply env _ file_id); [simpl; discriminate|].
  simpl fst. intros [= <-]. exists file_id.
  split; [reflexivity|]. split; [reflexivity|].
  simpl snd. simpl files. unfold files_create. rewrite Hc. simpl.
  rewrite lookup_alter_eq, lookup_insert_eq. reflexivity.
Qed.

Section GatherWorld.
Context {A : Type}.
Implicit Types (tasks : list (M A)) (st : GatherState A).

(** The world the children leave does not depend on the callbacks. *)
Lemma run_children_world n order tasks :
  forall st st' w,
    snd (run_children n order tasks st w) = snd (run_children n order tasks st' w).
Proof.
  induction order as [|k rest IH]; intros st st' w; simpl; [reflexivity|].
  destruct (tasks !! k) as [task|]; [|apply IH].
  destruct (task w) as [r w']. apply IH.
Qed.

(** When no child disturbs the objects Drive holds, the objects a child
    leaves are still there after the last child. *)
Lemma completions_keep_objects n order tasks :
  (forall k task w, tasks !! k = Some task -> keeps_objects w (snd (task w))) ->
  forall st w k r,
    (k, r) ∈ completions order tasks w ->
    exists (task : M A) w0,
      tasks !! k = Some task /\ fst (task w0) = r /\
      keeps_objects (snd (task w0)) (snd (run_children n order tasks st w)).
Proof.
  intros Hkeep.
  assert (Hall : forall order st w,
             keeps_objects w (snd (run_children n order tasks st w))).
  { intros order'. induction order' as [|k rest IH]; intros st w; simpl.
    - apply keeps_objects_refl.
    - destruct (tasks !! k) as [task|] eqn:Hk; [|apply IH].
      destruct (task w) as [r w'] eqn:Hrun.
      eapply keeps_objects_trans; [|apply IH].
      pose proof (Hkeep k task w Hk) as Hw. rewrite Hrun in Hw. exact Hw. }
  induction order as [|k' rest IH]; intros st w k r; simpl.
  - intros Hin. apply elem_of_nil in Hin. contradiction.
  - destruct (tasks !! k') as [task|] eqn:Hk'; [|apply IH].
    destruct (task w) as [r' w'] eqn:Hrun. intros Hin.
    apply elem_of_cons in Hin as [[= -> ->]|Hin]; [|eapply IH; exact Hin].
    exists task, w. rewrite Hrun. split; [exact Hk'|]. split; [reflexivity|].
    apply Hall.
Qed.

Lemma gather_world sched tasks w :
  tasks <> [] ->
  snd (gather sched tasks w)
  = snd (run_children (length tasks) (completion_order (length tasks) sched) tasks
                      (gather_init (length tasks)) w).
Proof.
  intros Hne. destruct tasks as [|task tasks]; [contradiction|].
  unfold gather.
  destruct (run_children (length (task :: tasks))
              (completion_order (length (task :: tasks)) sched) (task :: tasks)
              (gather_init (length (task :: tasks))) w) as [st w'].
  reflexivity.
Qed.

End GatherWorld.

(** X3. When Drive never reuses an identifier and the uploads of a request all
    succeed, then for every page [i] (0-based) the link at position [i]
    names an object that Drive holds once the uploads are over, and that
    object is called "page{i+1}.png", holds the image of page [i], and is
    readable by anyone, in whatever order the uploads finished. *)
Theorem links_name_the_objects_of_their_pages env image_bytes_list sched w image_urls :
  fresh_ids env ->
  fst (gather sched (upload_tasks env image_bytes_list) w) = Ok image_urls ->
  forall i image_bytes,
    image_bytes_list !! i = Some image_bytes ->
    exists file_id,
      image_urls !! i = Some ("https://drive.google.com/uc?id=" +:+ file_id) /\
      files (snd (gather sched (upload_tasks env image_bytes_list) w)) !! file_id
        = Some {| name := "page" +:+ pretty (i + 1)%nat +:+ ".png";
                  parents := [GDRIVE_FOLDER_ID env];
                  mimeType := "image/png"; media := image_bytes;
                  anyone_reader := true |}.
Proof.
  intros Hfresh Hok i image_bytes Hi.
  assert (Htask : upload_tasks env image_bytes_list !! i
                  = Some (upload_image_to_gdrive env image_bytes (page_filename i))).
  { unfold upload_tasks. rewrite list_lookup_imap, Hi. reflexivity. }
  assert (Hne : upload_tasks env image_bytes_list <> []).
  { intros Hnil. rewrite Hnil, lookup_nil in Htask. discriminate. }
  destruct (gather_by_index _ _ _ _ Hok) as [Hlen Hidx].
  destruct (lookup_lt_is_Some_2 image_urls i) as [link Hlink].
  { rewrite Hlen. apply lookup_lt_is_Some. eexists; exact Htask. }
  pose proof (proj1 (Hidx i link) Hlink) as Hin.
  apply (completions_keep_objects (length (upload_tasks env image_bytes_list)))
    with (st := gather_init (length (upload_tasks env image_bytes_list)))
    in Hin as (task & w0 & Htask' & Hres & Hkeep).
  - rewrite Htask in Htask'. injection Htask' as [= <-].
    apply upload_Ok_inv in Hres as (file_id & _ & -> & Hfile).
    exists file_id. split; [exact Hlink|].
    rewrite (gather_world _ _ _ Hne). apply Hkeep, Hfile.
  - intros k task w1 Hk. unfold upload_tasks in Hk. rewrite list_lookup_imap in Hk.
    destruct (image_bytes_list !! k) as [image|]; [|discriminate].
    injection Hk as [= <-]. apply upload_keeps_objects, Hfresh.
Qed.

Lemma links_name_the_objects_of_their_pages_witness :
  exists file_id,
    ["https://drive.google.com/uc?id=1"; "https://drive.google.com/uc?id=0"] !! 1%nat
      = Some ("https://drive.google.com/uc?id=" +:+ file_id) /\
    files (snd (gather [1; 0]%nat
                  (upload_tasks
                     (Sample.env (Sample.response 200 "application/pdf" Sample.pdf)
                                 (Sample.document 2) None)
                     [Sample.page 0; Sample.page 1])
                  initial_world)) !! file_id
      = Some {| name := "page" +:+ pretty (1 + 1)%nat +:+ ".png";
                parents := [GDRIVE_FOLDER_ID
                              (Sample.env (Sample.response 200 "application/pdf" Sample.pdf)
                                          (Sample.document 2) None)];
                mimeType := "image/png"; media := Sample.page 1;
                anyone_reader := true |}.
Proof.
  apply (links_name_the_objects_of_their_pages
           (Sample.env (Sample.response 200 "application/pdf" Sample.pdf)
                       (Sample.document 2) None)
           [Sample.page 0; Sample.page 1] [1; 0]%nat initial_world
           ["https://drive.google.com/uc?id=1"; "https://drive.google.com/uc?id=0"]).
  - intros w filename content file_id [= <-].
    apply not_elem_of_dom, is_fresh.
  - vm_compute. reflexivity.
  - reflexivity.
Defined.

(** * Further properties of the pipeline *)

(** ** The fetch step, outcome by outcome *)

Lemma download_pdf_body_get_fails env url w e :
  http_get env url = Raise e ->
  download_pdf_body env url w = (Raise e, emit (EvGet url) w).
Proof.
  intros Hget. unfold download_pdf_body, bind, call. rewrite Hget. reflexivity.
Qed.

(** What [download_pdf] does for an answered GET, check by check. *)
Lemma download_pdf_cases env url w response :
  http_get env url = Ok response ->
  (status response <> 200 /\
   download_pdf env url w
   = (Raise (unexpected
               (HTTPException 400
                  ("Failed to download PDF. Status code: " +:+ pretty (status response))
                  None)),
      emit (EvGet url) w)) \/
  (status response = 200 /\
   contains "pdf" (lower (headers_get (headers response) "Content-Type" "")) = false /\
   download_pdf env url w
   = (Raise (unexpected
               (HTTPException 400
                  ("URL does not point to a PDF file. Content-Type: "
                   +:+ headers_get (headers response) "Content-Type" "") None)),
      emit (EvGet url) w)) \/
  (status response = 200 /\
   contains "pdf" (lower (headers_get (headers response) "Content-Type" "")) = true /\
   download_pdf env url w
   = match read response with
     | Ok pdf_bytes =>
         if (len pdf_bytes >? MAX_PDF_SIZE)%Z
         then (Raise (unexpected (HTTPException 400 "PDF file is too large." None)),
               emit EvRead (emit (EvGet url) w))
         else (Ok pdf_bytes, emit EvRead (emit (EvGet url) w))
     | Raise e => download_pdf_handler e (emit EvRead (emit (EvGet url) w))
     end).
Proof.
  intros Hget. destruct (Z.eq_dec (status response) 200) as [Hst|Hst].
  - destruct (contains "pdf" (lower (headers_get (headers response) "Content-Type" "")))
      eqn:Hct.
    + right. right. split; [exact Hst|]. split; [reflexivity|].
      unfold download_pdf, try_except.
      rewrite (download_pdf_body_read _ _ _ _ Hget Hst Hct).
      destruct (read response) as [pdf_bytes|e]; [|reflexivity].
      destruct (len pdf_bytes >? MAX_PDF_SIZE)%Z; reflexivity.
    + right. left. split; [exact Hst|]. split; [reflexivity|].
      apply download_pdf_wraps; [|reflexivity].
      apply (download_pdf_body_bad_content_type _ _ _ _ Hget Hst Hct).
  - left. split; [exact Hst|].
    apply download_pdf_wraps; [|reflexivity].
    apply (download_pdf_body_bad_status _ _ _ _ Hget Hst).
Qed.

(** A body that [download_pdf] returns passed the three checks. *)
Lemma download_pdf_Ok_inv env url w pdf_bytes :
  fst (download_pdf env url w) = Ok pdf_bytes ->
  exists response,
    http_get env url = Ok response /\
    status response = 200 /\
    contains "pdf" (lower (headers_get (headers response) "Content-Type" "")) = true /\
    read response = Ok pdf_bytes /\
    (len pdf_bytes <= 10485760)%Z.
Proof.
  destruct (http_get env url) as [response|e] eqn:Hget.
  - destruct (download_pdf_cases env url w response Hget)
      as [[_ ->]|[(_ & _ & ->)|(Hst & Hct & ->)]]; try (simpl; discriminate).
    destruct (read response) as [body|e] eqn:Hread.
    + destruct (len body >? MAX_PDF_SIZE)%Z eqn:Hlen; [simpl; discriminate|].
      simpl. intros [= ->]. exists response.
      rewrite Z.gtb_ltb in Hlen. apply Z.ltb_ge in Hlen.
      unfold MAX_PDF_SIZE in Hlen. repeat split; assumption.
    + unfold download_pdf_handler. destruct (is_ClientError e); simpl; discriminate.
  - unfold download_pdf, try_except.
    rewrite (download_pdf_body_get_fails _ _ _ _ Hget).
    unfold download_pdf_handler. destruct (is_ClientError e); simpl; discriminate.
Qed.

(** X4. [download_pdf] returns a body exactly when the GET is answered
    with status 200 and a Content-Type whose lower-cased value contains
    "pdf", the read succeeds, and the body read has at most 10 MiB
    (10485760 octets, the bound included); what it returns is the body
    read. *)
Theorem download_pdf_returns_exactly_the_accepted_body env url w pdf_bytes :
  fst (download_pdf env url w) = Ok pdf_bytes <->
  exists response,
    http_get env url = Ok response /\
    status response = 200 /\
    contains "pdf" (lower (headers_get (headers response) "Content-Type" "")) = true /\
    read response = Ok pdf_bytes /\
    (len pdf_bytes <= 10485760)%Z.
Proof.
  split; [apply download_pdf_Ok_inv|].
  - intros (response & Hget & Hst & Hct & Hread & Hlen).
    destruct (download_pdf_cases env url w response Hget)
      as [[Hst' _]|[(_ & Hct' & _)|(_ & _ & ->)]]; [contradiction|congruence|].
    rewrite Hread.
    replace (len pdf_bytes >? MAX_PDF_SIZE)%Z with false; [reflexivity|].
    symmetry. rewrite Z.gtb_ltb. apply Z.ltb_ge. unfold MAX_PDF_SIZE. lia.
Qed.

(** The calls and the exceptions of [download_pdf]. *)
Lemma download_pdf_outcome env url w :
  files (snd (download_pdf env url w)) = files w /\
  (trace (snd (download_pdf env url w)) = trace w ++ [EvGet url] \/
   trace (snd (download_pdf env url w)) = trace w ++ [EvGet url; EvRead]) /\
  forall e,
    fst (download_pdf env url w) = Raise e ->
    exists cause,
      (is_ClientError cause = true /\
       e = HTTPException 400 "Client error occurred while downloading PDF." (Some cause)) \/
      (is_ClientError cause = false /\
       e = HTTPException 500 "Unexpected error occurred." (Some cause)).
Proof.
  assert (Hhandler : forall e0 w0,
             files (snd (download_pdf_handler e0 w0)) = files w0 /\
             trace (snd (download_pdf_handler e0 w0)) = trace w0 /\
             forall e, fst (download_pdf_handler e0 w0) = Raise e ->
               exists cause,
                 (is_ClientError cause = true /\
                  e = HTTPException 400 "Client error occurred while downloading PDF."
                        (Some cause)) \/
                 (is_ClientError cause = false /\
                  e = HTTPException 500 "Unexpected error occurred." (Some cause))).
  { intros e0 w0. unfold download_pdf_handler.
    destruct (is_ClientError e0) eqn:He0; simpl;
      (split; [reflexivity|]; split; [reflexivity|]);
      intros e [= <-]; exists e0; [left|right]; auto. }
  destruct (http_get env url) as [response|e0] eqn:Hget.
  - destruct (download_pdf_cases env url w response Hget)
      as [[_ ->]|[(_ & _ & ->)|(_ & _ & ->)]].
    + simpl. split; [reflexivity|]. split; [left; reflexivity|].
      intros e [= <-]. eexists. right. split; [|reflexivity]; reflexivity.
    + simpl. split; [reflexivity|]. split; [left; reflexivity|].
      intros e [= <-]. eexists. right. split; [|reflexivity]; reflexivity.
    + destruct (read response) as [body|e0].
      * destruct (len body >? MAX_PDF_SIZE)%Z; rewrite emit_emit; simpl;
          (split; [reflexivity|]; split; [right; reflexivity|]).
        -- intros e [= <-]. eexists. right. split; [|reflexivity]; reflexivity.
        -- intros e; discriminate.
      * destruct (Hhandler e0 (emit EvRead (emit (EvGet url) w))) as (Hf & Ht & He).
        split; [rewrite Hf; reflexivity|].
        split; [right; rewrite Ht, emit_emit; reflexivity | exact He].
  - unfold download_pdf, try_except.
    rewrite (download_pdf_body_get_fails _ _ _ _ Hget).
    destruct (Hhandler e0 (emit (EvGet url) w)) as (Hf & Ht & He).
    split; [rewrite Hf; reflexivity|].
    split; [left; rewrite Ht; reflexivity | exact He].
Qed.

(** X5. Whatever the server answers, [download_pdf] leaves the objects in
    Drive as they are, makes the GET and at most one read and no other
    remote call, and when it raises, raises one of two exceptions: status
    400 "Client error occurred while downloading PDF." for a transport
    error, status 500 "Unexpected error occurred." for everything else,
    its own checks included. *)
Theorem download_pdf_calls_and_errors env url w :
  files (snd (download_pdf env url w)) = files w /\
  (trace (snd (download_pdf env url w)) = trace w ++ [EvGet url] \/
   trace (snd (download_pdf env url w)) = trace w ++ [EvGet url; EvRead]) /\
  forall e,
    fst (download_pdf env url w) = Raise e ->
    exists cause,
      (is_ClientError cause = true /\
       e = HTTPException 400 "Client error occurred while downloading PDF." (Some cause)) \/
      (is_ClientError cause = false /\
       e = HTTPException 500 "Unexpected error occurred." (Some cause)).
Proof. exact (download_pdf_outcome env url w). Qed.

Lemma headers_get_missing hs key default :
  (forall k v, (k, v) ∈ hs -> lower k <> lower key) ->
  headers_get hs key default = default.
Proof.
  induction hs as [|[k v] hs IH]; intros Hmiss; simpl; [reflexivity|].
  destruct (String.eqb (lower k) (lower key)) eqn:Heq.
  - apply String.eqb_eq in Heq. exfalso.
    apply (Hmiss k v); [apply list_elem_of_here | exact Heq].
  - apply IH. intros k' v' Hin. apply (Hmiss k' v'), list_elem_of_further, Hin.
Qed.

(** X6. A response with status 200 that carries no Content-Type header
    (under any capitalisation of the name) is rejected like one with a
    wrong type: the value defaults to the empty string, the body is not
    read, and the exception that leaves [download_pdf] is "Unexpected
    error occurred." (status 500) around the check's own exception. *)
Theorem missing_content_type_is_rejected env url w response :
  http_get env url = Ok response ->
  status response = 200 ->
  (forall k v, (k, v) ∈ headers response -> lower k <> "content-type") ->
  download_pdf env url w =
    (Raise (HTTPException 500 "Unexpected error occurred."
              (Some (HTTPException 400
                       "URL does not point to a PDF file. Content-Type: " None))),
     emit (EvGet url) w).
Proof.
  intros Hget Hst Hmiss.
  assert (Hct : headers_get (headers response) "Content-Type" "" = "")
    by (apply headers_get_missing; exact Hmiss).
  apply download_pdf_wraps; [|reflexivity].
  rewrite (download_pdf_body_bad_content_type _ _ _ _ Hget Hst); rewrite Hct; reflexivity.
Qed.

Lemma missing_content_type_is_rejected_witness :
  download_pdf
    {| http_get := fun _ => Ok {| status := 200;
                                  headers := [("Content-Length", "4")];
                                  read := Ok Sample.pdf |};
       fitz_open := fun _ => Ok (Sample.document 1);
       GDRIVE_FOLDER_ID := None;
       files_create_reply := fun _ _ _ => Ok "f";
       permissions_create_reply := fun _ _ => None |}
    Sample.url initial_world
  = (Raise (HTTPException 500 "Unexpected error occurred."
              (Some (HTTPException 400
                       "URL does not point to a PDF file. Content-Type: " None))),
     emit (EvGet Sample.url) initial_world).
Proof.
  apply (missing_content_type_is_rejected _ _ _
           {| status := 200; headers := [("Content-Length", "4")];
              read := Ok Sample.pdf |}).
  - reflexivity.
  - reflexivity.
  - intros k v Hin. apply list_elem_of_singleton in Hin. injection Hin as [= -> _].
    vm_compute. discriminate.
Defined.

(** ** The rasterizer, failure by failure *)




Lemma render_pages_quiet doc page_nums :
  forall acc, quiet (render_pages doc page_nums acc).
Proof.
  induction page_nums as [|page_num rest IH]; intros acc w; simpl.
  - split; [reflexivity|]. exists []. rewrite app_nil_r. split; [reflexivity|constructor].
  - unfold bind, call. destruct (render doc page_num DPI) as [png|e].
    + destruct (IH (acc ++ [png]) (emit (EvLoadPage page_num) w))
        as (Hf & calls & Ht & Hcalls).
      split; [rewrite Hf; reflexivity|].
      exists (EvLoadPage page_num :: calls). rewrite Ht. unfold emit; simpl.
      rewrite <- app_assoc. split; [reflexivity|]. constructor; [reflexivity|exact Hcalls].
    + simpl. split; [reflexivity|]. exists [EvLoadPage page_num].
      split; [reflexivity|]. constructor; [reflexivity|constructor].
Qed.

Lemma convert_pdf_to_images_quiet env pdf_bytes :
  quiet (convert_pdf_to_images env pdf_bytes).
Proof.
  intros w. unfold convert_pdf_to_images, try_except, convert_pdf_to_images_body,
    bind, call.
  destruct (fitz_open env pdf_bytes) as [doc|e].
  - destruct (MAX_PAGE_COUNT <? page_count doc)%nat.
    + simpl. split; [reflexivity|]. exists [EvOpen pdf_bytes].
      split; [reflexivity|]. constructor; [reflexivity|constructor].
    + destruct (render_pages_quiet doc (seq 0 (Nat.min (page_count doc) MAX_PAGE_COUNT))
                  [] (emit (EvOpen pdf_bytes) w)) as (Hf & calls & Ht & Hcalls).
      assert (Hgoal : files (snd (render_pages doc
                         (seq 0 (Nat.min (page_count doc) MAX_PAGE_COUNT)) []
                         (emit (EvOpen pdf_bytes) w))) = files w /\
                      exists calls',
                        trace (snd (render_pages doc
                           (seq 0 (Nat.min (page_count doc) MAX_PAGE_COUNT)) []
                           (emit (EvOpen pdf_bytes) w))) = trace w ++ calls' /\
                        Forall (fun ev => is_drive_call ev = false) calls').
      { split; [rewrite Hf; reflexivity|]. exists (EvOpen pdf_bytes :: calls).
        rewrite Ht. unfold emit; simpl. rewrite <- app_assoc.
        split; [reflexivity|]. constructor; [reflexivity|exact Hcalls]. }
      destruct (render_pages doc (seq 0 (Nat.min (page_count doc) MAX_PAGE_COUNT)) []
                  (emit (EvOpen pdf_bytes) w)) as [[images|e] w']; exact Hgoal.
  - simpl. split; [reflexivity|]. exists [EvOpen pdf_bytes].
    split; [reflexivity|]. constructor; [reflexivity|constructor].
Qed.

Lemma convert_pdf_to_images_Raise env pdf_bytes w e :
  fst (convert_pdf_to_images env pdf_bytes w) = Raise e ->
  exists cause, e = HTTPException 500 "Error converting PDF to images." (Some cause).
Proof.
  unfold convert_pdf_to_images, try_except.
  destruct (convert_pdf_to_images_body env pdf_bytes w) as [[images|cause] w'];
    [simpl; discriminate|].
  simpl. intros [= <-]. exists cause. reflexivity.
Qed.



(** X9. The two diagnostic calls sit inside the rasterizer's [try] block.
    When neither raises, the function behaves as [convert_pdf_to_images]
    does.  When the first raises, the request fails with "Error converting
    PDF to images." (status 500) before the document is opened.  When the
    second raises, the request fails in the same way although every page
    has been rendered. *)
Theorem diagnostics_can_fail_the_rasterizer diag env pdf_bytes w :
  ((forall stage, diag stage = None) ->
   convert_pdf_to_images_logged diag env pdf_bytes w
   = convert_pdf_to_images env pdf_bytes w) /\
  (forall e,
      diag "Before Conversion" = Some e ->
      convert_pdf_to_images_logged diag env pdf_bytes w
      = (Raise (HTTPException 500 "Error converting PDF to images." (Some e)), w)) /\
  (forall e image_bytes_list,
      diag "Before Conversion" = None ->
      diag "After Conversion" = Some e ->
      fst (convert_pdf_to_images env pdf_bytes w) = Ok image_bytes_list ->
      convert_pdf_to_images_logged diag env pdf_bytes w
      = (Raise (HTTPException 500 "Error converting PDF to images." (Some e)),
         snd (convert_pdf_to_images env pdf_bytes w))).
Proof.
  unfold convert_pdf_to_images_logged, convert_pdf_to_images, try_except, bind,
    log_resource_usage, ret.
  split; [|split].
  - intros Hquiet. rewrite !Hquiet.
    destruct (convert_pdf_to_images_body env pdf_bytes w) as [[images|e] w'];
      reflexivity.
  - intros e Hbefore. rewrite Hbefore. reflexivity.
  - intros e images Hbefore Hafter. rewrite Hbefore, Hafter.
    destruct (convert_pdf_to_images_body env pdf_bytes w) as [[images'|e'] w'];
      simpl; [reflexivity | discriminate].
Qed.

Lemma diagnostics_can_fail_the_rasterizer_witness :
  convert_pdf_to_images_logged
    (fun stage => if String.eqb stage "After Conversion"
                  then Some (OtherException "AccessDenied") else None)
    (Sample.env (Sample.response 200 "application/pdf" Sample.pdf)
                (Sample.document 2) None)
    Sample.pdf initial_world
  = (Raise (HTTPException 500 "Error converting PDF to images."
              (Some (OtherException "AccessDenied"))),
     snd (convert_pdf_to_images
            (Sample.env (Sample.response 200 "application/pdf" Sample.pdf)
                        (Sample.document 2) None)
            Sample.pdf initial_world)).
Proof.
  apply (proj2 (proj2 (diagnostics_can_fail_the_rasterizer _ _ Sample.pdf initial_world))
           (OtherException "AccessDenied") [Sample.page 0; Sample.page 1]).
  - reflexivity.
  - reflexivity.
  - vm_compute. reflexivity.
Defined.

(** ** One upload *)

Lemma upload_image_to_gdrive_Raise env image_bytes filename w e :
  fst (upload_image_to_gdrive env image_bytes filename w) = Raise e ->
  exists cause, e = HTTPException 500 "Error uploading images." (Some cause).
Proof.
  rewrite upload_image_to_gdrive_unfold.
  destruct (files_create_reply env w filename image_bytes) as [file_id|cause].
  - cbv zeta. destruct (permissions_create_reply env _ file_id) as [cause|].
    + simpl. intros [= <-]. exists cause. reflexivity.
    + simpl. discriminate.
  - simpl. intros [= <-]. exists cause. reflexivity.
Qed.

(** The calls of one upload: the create, then at most the permission
    request. *)
Lemma upload_image_to_gdrive_trace env image_bytes filename w :
  exists rest,
    trace (snd (upload_image_to_gdrive env image_bytes filename w))
    = trace w ++ EvFilesCreate filename :: rest /\
    Forall (fun ev => is_drive_call ev = true) rest.
Proof.
  rewrite upload_image_to_gdrive_unfold.
  destruct (files_create_reply env w filename image_bytes) as [file_id|cause] eqn:Hc.
  - cbv zeta. unfold files_create. rewrite Hc. cbn [snd].
    exists [EvPermissionsCreate file_id].
    split; [|constructor; [reflexivity|constructor]].
    destruct (permissions_create_reply env _ file_id); cbn [snd trace emit];
      rewrite <- app_assoc; reflexivity.
  - exists []. split; [reflexivity|constructor].
Qed.

(** X10. Every failure of [upload_image_to_gdrive] leaves as the same
    exception, "Error uploading images." with status 500, whichever of the
    two Drive calls failed; and when the create call fails, the permission
    request is not made and Drive holds what it held before. *)
Theorem upload_failures_look_alike env image_bytes filename w :
  (forall e,
      fst (upload_image_to_gdrive env image_bytes filename w) = Raise e ->
      exists cause, e = HTTPException 500 "Error uploading images." (Some cause)) /\
  (forall cause,
      files_create_reply env w filename image_bytes = Raise cause ->
      upload_image_to_gdrive env image_bytes filename w
      = (Raise (HTTPException 500 "Error uploading images." (Some cause)),
         {| files := files w; trace := trace w ++ [EvFilesCreate filename] |})).
Proof.
  split; [apply upload_image_to_gdrive_Raise|].
  intros cause Hc. rewrite upload_image_to_gdrive_unfold, Hc. reflexivity.
Qed.

Lemma upload_failures_look_alike_witness :
  upload_image_to_gdrive
    {| http_get := fun _ => Ok (Sample.response 200 "application/pdf" Sample.pdf);
       fitz_open := fun _ => Ok (Sample.document 1);
       GDRIVE_FOLDER_ID := None;
       files_create_reply := fun _ _ _ => Raise (OtherException "HttpError 404");
       permissions_create_reply := fun _ _ => None |}
    Sample.png "page1.png" initial_world
  = (Raise (HTTPException 500 "Error uploading images."
              (Some (OtherException "HttpError 404"))),
     {| files := files initial_world;
        trace := trace initial_world ++ [EvFilesCreate "page1.png"] |}).
Proof.
  apply (proj2 (upload_failures_look_alike _ Sample.png "page1.png" initial_world)).
  reflexivity.
Defined.

(** X11. When Drive never reuses an identifier, an upload changes nothing
    about the objects Drive already holds, and adds at most one object: the
    one its create call made, with the name, bytes, type and folder the
    upload was given. *)
Theorem upload_touches_only_the_object_it_creates env image_bytes filename w :
  fresh_ids env ->
  keeps_objects w (snd (upload_image_to_gdrive env image_bytes filename w)) /\
  forall file_id f,
    files (snd (upload_image_to_gdrive env image_bytes filename w)) !! file_id = Some f ->
    files w !! file_id = Some f \/
    (files_create_reply env w filename image_bytes = Ok file_id /\
     name f = filename /\ media f = image_bytes /\
     mimeType f = "image/png" /\ parents f = [GDRIVE_FOLDER_ID env]).
Proof.
  intros Hfresh. split; [apply upload_keeps_objects, Hfresh|].
  intros file_id f. rewrite upload_image_to_gdrive_unfold.
  destruct (files_create_reply env w filename image_bytes) as [new_id|cause] eqn:Hc;
    [|left; assumption].
  cbv zeta. unfold files_create. rewrite Hc. cbn [snd].
  destruct (decide (new_id = file_id)) as [->|Hne].
  - destruct (permissions_create_reply env _ file_id); cbn [snd files emit];
      rewrite ?lookup_alter_eq, lookup_insert_eq; simpl; intros [= <-];
      right; repeat split; reflexivity.
  - destruct (permissions_create_reply env _ new_id); cbn [snd files emit];
      rewrite ?lookup_alter_ne by exact Hne; rewrite lookup_insert_ne by exact Hne;
      intros Hf; left; exact Hf.
Qed.

Lemma upload_touches_only_the_object_it_creates_witness :
  keeps_objects initial_world
    (snd (upload_image_to_gdrive
            (Sample.env (Sample.response 200 "application/pdf" Sample.pdf)
                        (Sample.document 1) None)
            Sample.png "page1.png" initial_world)).
Proof.
  apply (upload_touches_only_the_object_it_creates
           (Sample.env (Sample.response 200 "application/pdf" Sample.pdf)
                       (Sample.document 1) None)
           Sample.png "page1.png" initial_world).
  intros w filename content file_id [= <-].
  apply not_elem_of_dom, is_fresh.
Defined.

(** ** All uploads of a request *)

Lemma extends_refl w : extends w w.
Proof. split; [apply keeps_objects_refl | reflexivity]. Qed.

Lemma extends_trans w1 w2 w3 : extends w1 w2 -> extends w2 w3 -> extends w1 w3.
Proof.
  intros [Hk12 Hp12] [Hk23 Hp23].
  split; [eapply keeps_objects_trans; eassumption | etransitivity; eassumption].
Qed.

Lemma upload_extends env image_bytes filename w :
  fresh_ids env ->
  extends w (snd (upload_image_to_gdrive env image_bytes filename w)).
Proof.
  intros Hfresh. split; [apply upload_keeps_objects, Hfresh|].
  destruct (upload_image_to_gdrive_trace env image_bytes filename w) as (rest & -> & _).
  apply prefix_app_r. reflexivity.
Qed.

Section GatherRel.
Context {A : Type} (R : World -> World -> Prop).
Hypothesis R_refl : forall w, R w w.
Hypothesis R_trans : forall w1 w2 w3, R w1 w2 -> R w2 w3 -> R w1 w3.
Implicit Types (tasks : list (M A)) (st : GatherState A).

(** A relation that every child respects holds between the world before
    the children and the world after them. *)
Lemma run_children_rel n order tasks :
  (forall k (task : M A) w, tasks !! k = Some task -> R w (snd (task w))) ->
  forall st w, R w (snd (run_children n order tasks st w)).
Proof.
  intros Hstep. induction order as [|k rest IH]; intros st w; simpl.
  - apply R_refl.
  - destruct (tasks !! k) as [task|] eqn:Hk; [|apply IH].
    destruct (task w) as [r w'] eqn:Hrun.
    eapply R_trans; [|apply IH].
    pose proof (Hstep k task w Hk) as Hw. rewrite Hrun in Hw. exact Hw.
Qed.

(** Each entry of the history comes from a run of its child in a world
    that follows the first and is followed by the last. *)
Lemma completions_rel n order tasks :
  (forall k (task : M A) w, tasks !! k = Some task -> R w (snd (task w))) ->
  forall st w k r,
    (k, r) ∈ completions order tasks w ->
    exists (task : M A) w0,
      tasks !! k = Some task /\ fst (task w0) = r /\
      R w w0 /\ R (snd (task w0)) (snd (run_children n order tasks st w)).
Proof.
  intros Hstep. induction order as [|k' rest IH]; intros st w k r; simpl.
  - intros Hin. apply elem_of_nil in Hin. contradiction.
  - destruct (tasks !! k') as [task|] eqn:Hk'; [|apply IH].
    destruct (task w) as [r' w'] eqn:Hrun. intros Hin.
    assert (Hw : R w w').
    { pose proof (Hstep k' task w Hk') as Hw. rewrite Hrun in Hw. exact Hw. }
    apply elem_of_cons in Hin as [[= -> ->]|Hin].
    + exists task, w. rewrite Hrun. split; [exact Hk'|]. split; [reflexivity|].
      split; [apply R_refl|]. apply run_children_rel, Hstep.
    + destruct (IH (done_callback n k' r' st) w' k r Hin)
        as (task0 & w0 & Ht & Hr & Hbefore & Hafter).
      exists task0, w0. split; [exact Ht|]. split; [exact Hr|].
      split; [eapply R_trans; eassumption | exact Hafter].
Qed.

End GatherRel.

Section GatherOutcome.
Context {A : Type}.
Implicit Types (tasks : list (M A)).

(** Every child finishes: each index has an entry in the history. *)
Lemma completions_cover sched tasks w k :
  (k < length tasks)%nat ->
  exists r, (k, r) ∈ completions (completion_order (length tasks) sched) tasks w.
Proof.
  intros Hk.
  destruct (completions_length (length tasks) sched tasks w eq_refl) as [Hkeys _].
  assert (Hin : k ∈ (completions (completion_order (length tasks) sched) tasks w).*1).
  { rewrite Hkeys. apply elem_of_completion_order. exact Hk. }
  apply list_elem_of_fmap in Hin as ([k' r] & Hfst & Hin). simpl in Hfst. subst k'.
  exists r. exact Hin.
Qed.

(** An exception that leaves [gather] was raised by one of the children. *)
Lemma gather_Raise_inv sched tasks w e :
  fst (gather sched tasks w) = Raise e ->
  exists k, (k, Raise e) ∈ completions (completion_order (length tasks) sched) tasks w.
Proof.
  destruct (decide (tasks = [])) as [->|Hne]; [simpl; discriminate|].
  rewrite (gather_unfold _ _ _ Hne).
  pose proof (gather_outer_filled sched tasks w Hne) as [o Ho].
  rewrite run_children_feed in Ho. rewrite Ho. intros ->.
  apply feed_outer_Raise in Ho. exact Ho.
Qed.

Lemma feed_app n (st : GatherState A) h1 h2 :
  feed n st (h1 ++ h2) = feed n (feed n st h1) h2.
Proof. unfold feed. apply foldl_app. Qed.

Lemma feed_outer_kept n (st : GatherState A) h o :
  outer st = Some o -> outer (feed n st h) = Some o.
Proof.
  intros Ho. induction h as [|[k r] h IH] using rev_ind; [exact Ho|].
  rewrite feed_snoc. apply done_callback_outer_Some, IH.
Qed.

(** While children return without raising and some child is still pending,
    [outer] stays pending. *)
Lemma feed_outer_pending n h :
  (forall k r, (k, r) ∈ h -> is_Ok r = true) ->
  (length h < n)%nat ->
  outer (feed (A:=A) n (gather_init n) h) = None.
Proof.
  induction h as [|[k r] h IH] using rev_ind; intros Hok Hlen; [reflexivity|].
  rewrite length_app in Hlen. simpl in Hlen.
  rewrite feed_snoc. unfold done_callback at 1.
  rewrite IH; [| intros k' r' Hin; apply (Hok k' r'), elem_of_app; left; exact Hin | lia].
  assert (Hr : is_Ok r = true).
  { apply (Hok k r), elem_of_app. right. apply list_elem_of_singleton. reflexivity. }
  destruct r as [a|e]; [|discriminate]. cbn [outer].
  rewrite feed_nfinished. cbn [gather_init nfinished]. rewrite Nat.add_0_l.
  replace (S (length h) =? n)%nat with false; [reflexivity|].
  symmetry. apply Nat.eqb_neq. lia.
Qed.

(** The exception [gather] reports is that of the child that failed first
    in order of completion, not in argument order. *)
Lemma gather_first_failure sched tasks w h1 k e h2 :
  completions (completion_order (length tasks) sched) tasks w = h1 ++ (k, Raise e) :: h2 ->
  (forall k' r, (k', r) ∈ h1 -> is_Ok r = true) ->
  fst (gather sched tasks w) = Raise e.
Proof.
  intros Hh Hok.
  destruct (completions_length (length tasks) sched tasks w eq_refl) as [_ Hlen].
  rewrite Hh, length_app in Hlen. simpl in Hlen.
  assert (Hne : tasks <> []).
  { intros ->. simpl in Hlen. lia. }
  rewrite (gather_unfold _ _ _ Hne), Hh.
  change (h1 ++ (k, Raise e) :: h2) with (h1 ++ [(k, Raise e)] ++ h2).
  rewrite app_assoc, feed_app.
  rewrite (feed_outer_kept _ _ _ (Raise e)); [reflexivity|].
  rewrite feed_snoc. unfold done_callback.
  rewrite feed_outer_pending by (assumption || lia). reflexivity.
Qed.

End GatherOutcome.

(** ** Destination names *)

Lemma string_length_app (a b : string) :
  String.length (a +:+ b) = (String.length a + String.length b)%nat.
Proof. induction a as [|c a IH]; simpl; [reflexivity | rewrite IH; reflexivity]. Qed.

Lemma string_app_inv_tail (a b t : string) : a +:+ t = b +:+ t -> a = b.
Proof.
  revert b. induction a as [|c a IH]; intros [|d b] H.
  - reflexivity.
  - apply (f_equal String.length) in H.
    rewrite !string_length_app in H. simpl in H. lia.
  - apply (f_equal String.length) in H.
    rewrite !string_length_app in H. simpl in H. lia.
  - simpl in H. injection H as -> H. f_equal. apply IH, H.
Qed.

Lemma page_filename_inj i j : page_filename i = page_filename j -> i = j.
Proof.
  unfold page_filename. intros H.
  apply (inj (String.app "page")) in H.
  apply string_app_inv_tail in H.
  apply (inj pretty) in H. lia.
Qed.

(** X12. Two different pages of a request are never uploaded under the
    same name: the names "page{idx+1}.png" of different positions differ,
    so the coroutines built for different positions of the image list
    differ in the name they pass to Drive. *)
Theorem pages_get_distinct_names env image_bytes_list i j image_i image_j :
  i <> j ->
  image_bytes_list !! i = Some image_i ->
  image_bytes_list !! j = Some image_j ->
  exists name_i name_j,
    upload_tasks env image_bytes_list !! i
      = Some (upload_image_to_gdrive env image_i name_i) /\
    upload_tasks env image_bytes_list !! j
      = Some (upload_image_to_gdrive env image_j name_j) /\
    name_i = "page" +:+ pretty (i + 1)%nat +:+ ".png" /\
    name_j = "page" +:+ pretty (j + 1)%nat +:+ ".png" /\
    name_i <> name_j.
Proof.
  intros Hne Hi Hj. exists (page_filename i), (page_filename j).
  unfold upload_tasks. rewrite !list_lookup_imap, Hi, Hj.
  repeat split; try reflexivity.
  intros Heq. apply Hne, page_filename_inj, Heq.
Qed.

Lemma pages_get_distinct_names_witness :
  exists name_i name_j,
    upload_tasks
      (Sample.env (Sample.response 200 "application/pdf" Sample.pdf)
                  (Sample.document 11) None)
      (Sample.page <$> seq 0 11) !! 0%nat
      = Some (upload_image_to_gdrive
                (Sample.env (Sample.response 200 "application/pdf" Sample.pdf)
                            (Sample.document 11) None)
                (Sample.page 0) name_i) /\
    upload_tasks
      (Sample.env (Sample.response 200 "application/pdf" Sample.pdf)
                  (Sample.document 11) None)
      (Sample.page <$> seq 0 11) !! 10%nat
      = Some (upload_image_to_gdrive
                (Sample.env (Sample.response 200 "application/pdf" Sample.pdf)
                            (Sample.document 11) None)
                (Sample.page 10) name_j) /\
    name_i = "page" +:+ pretty (0 + 1)%nat +:+ ".png" /\
    name_j = "page" +:+ pretty (10 + 1)%nat +:+ ".png" /\
    name_i <> name_j.
Proof.
  apply (pages_get_distinct_names _ (Sample.page <$> seq 0 11) 0%nat 10%nat).
  - lia.
  - reflexivity.
  - reflexivity.
Defined.

(** ** What the uploads leave behind *)

Lemma upload_tasks_lookup env image_bytes_list k (task : M string) :
  upload_tasks env image_bytes_list !! k = Some task ->
  exists image_bytes,
    image_bytes_list !! k = Some image_bytes /\
    task = upload_image_to_gdrive env image_bytes (page_filename k).
Proof.
  unfold upload_tasks. rewrite list_lookup_imap.
  destruct (image_bytes_list !! k) as [image_bytes|]; [|discriminate].
  intros [= <-]. exists image_bytes. auto.
Qed.

(** Every upload that ran in a request, with what it returned, what it
    logged and what it left in Drive at the end. *)
Lemma completed_upload env image_bytes_list sched w k r :
  fresh_ids env ->
  (k, r) ∈ completions (completion_order (length image_bytes_list) sched)
                       (upload_tasks env image_bytes_list) w ->
  exists image_bytes calls,
    image_bytes_list !! k = Some image_bytes /\
    trace (snd (gather sched (upload_tasks env image_bytes_list) w))
      = trace w ++ calls /\
    EvFilesCreate (page_filename k) ∈ calls /\
    forall link,
      r = Ok link ->
      exists file_id,
        link = shareable_link file_id /\
        files (snd (gather sched (upload_tasks env image_bytes_list) w)) !! file_id
          = Some {| name := page_filename k; parents := [GDRIVE_FOLDER_ID env];
                    mimeType := "image/png"; media := image_bytes;
                    anyone_reader := true |}.
Proof.
  intros Hfresh Hin.
  assert (Hlen : length (upload_tasks env image_bytes_list) = length image_bytes_list)
    by apply length_imap.
  assert (Hne : upload_tasks env image_bytes_list <> []).
  { intros Hnil. rewrite Hnil in Hin.
    apply completions_task in Hin as (task & w0 & Hl & _).
    rewrite lookup_nil in Hl. discriminate. }
  apply (completions_rel extends extends_refl extends_trans
           (length (upload_tasks env image_bytes_list)))
    with (st := gather_init (length (upload_tasks env image_bytes_list)))
    in Hin as (task & w0 & Htask & Hres & [_ Hbefore] & [Hkeep Hafter]).
  2:{ intros k' task' w' Hk'.
      apply upload_tasks_lookup in Hk' as (image' & _ & ->).
      apply upload_extends, Hfresh. }
  apply upload_tasks_lookup in Htask as (image_bytes & Himage & ->).
  rewrite Hlen in *. rewrite (gather_world _ _ _ Hne), Hlen.
  destruct (upload_image_to_gdrive_trace env image_bytes (page_filename k) w0)
    as (rest & Htrace & _).
  destruct Hbefore as [before Hbefore]. destruct Hafter as [after Hafter].
  exists image_bytes, (before ++ EvFilesCreate (page_filename k) :: rest ++ after).
  split; [exact Himage|]. split.
  - rewrite Hafter, Htrace, Hbefore, <- !app_assoc. reflexivity.
  - split.
    + apply elem_of_app. right. apply list_elem_of_here.
    + intros link ->. apply upload_Ok_inv in Hres as (file_id & _ & -> & Hfile).
      exists file_id. split; [reflexivity|]. apply Hkeep, Hfile.
Qed.

(** A history in which some child raised has a first child that raised. *)
Lemma first_failure_split {A} (h : list (nat * result A)) k e :
  (k, Raise e) ∈ h ->
  exists h1 k' e' h2,
    h = h1 ++ (k', Raise e') :: h2 /\
    forall k0 r, (k0, r) ∈ h1 -> is_Ok r = true.
Proof.
  induction h as [|[k0 r0] h IH]; intros Hin.
  - apply elem_of_nil in Hin. contradiction.
  - destruct r0 as [a|e0].
    + apply elem_of_cons in Hin as [Heq|Hin]; [discriminate|].
      destruct (IH Hin) as (h1 & k' & e' & h2 & -> & Hok).
      exists ((k0, Ok a) :: h1), k', e', h2. split; [reflexivity|].
      intros k1 r Hin1. apply elem_of_cons in Hin1 as [[= -> ->]|Hin1];
        [reflexivity | exact (Hok k1 r Hin1)].
    + exists [], k0, e0, h. split; [reflexivity|].
      intros k1 r Hin1. apply elem_of_nil in Hin1. contradiction.
Qed.

(** X13. When Drive never reuses an identifier: an upload that fails makes
    [gather] raise "Error uploading images." (status 500), and [gather]
    raises nothing else; but the failure neither stops nor undoes the
    other uploads.  Every page's upload still runs to its end (its create
    call is among the calls made), and for every upload that returned a
    link, Drive holds the object the link names at the end, public, with
    the page's name and bytes. *)
Theorem a_failed_upload_neither_stops_nor_undoes_the_others
    env image_bytes_list sched w :
  fresh_ids env ->
  (forall k e,
      (k, Raise e) ∈ completions (completion_order (length image_bytes_list) sched)
                                 (upload_tasks env image_bytes_list) w ->
      exists cause,
        fst (gather sched (upload_tasks env image_bytes_list) w)
        = Raise (HTTPException 500 "Error uploading images." (Some cause))) /\
  (forall e,
      fst (gather sched (upload_tasks env image_bytes_list) w) = Raise e ->
      exists cause, e = HTTPException 500 "Error uploading images." (Some cause)) /\
  (forall k image_bytes,
      image_bytes_list !! k = Some image_bytes ->
      exists r calls,
        (k, r) ∈ completions (completion_order (length image_bytes_list) sched)
                             (upload_tasks env image_bytes_list) w /\
        trace (snd (gather sched (upload_tasks env image_bytes_list) w))
          = trace w ++ calls /\
        EvFilesCreate ("page" +:+ pretty (k + 1)%nat +:+ ".png") ∈ calls /\
        forall link,
          r = Ok link ->
          exists file_id,
            link = "https://drive.google.com/uc?id=" +:+ file_id /\
            files (snd (gather sched (upload_tasks env image_bytes_list) w)) !! file_id
              = Some {| name := "page" +:+ pretty (k + 1)%nat +:+ ".png";
                        parents := [GDRIVE_FOLDER_ID env];
                        mimeType := "image/png"; media := image_bytes;
                        anyone_reader := true |}).
Proof.
  intros Hfresh.
  assert (Hlen : length (upload_tasks env image_bytes_list) = length image_bytes_list)
    by apply length_imap.
  assert (Hraise : forall e,
             fst (gather sched (upload_tasks env image_bytes_list) w) = Raise e ->
             exists cause, e = HTTPException 500 "Error uploading images." (Some cause)).
  { intros e He. apply gather_Raise_inv in He as [k Hk].
    apply completions_task in Hk as (task & w0 & Htask & Hres).
    apply upload_tasks_lookup in Htask as (image_bytes & _ & ->).
    apply upload_image_to_gdrive_Raise in Hres. exact Hres. }
  split; [|split; [exact Hraise|]].
  - intros k e Hin.
    apply first_failure_split in Hin as (h1 & k' & e' & h2 & Hh & Hok).
    rewrite <- Hlen in Hh.
    pose proof (gather_first_failure sched _ w h1 k' e' h2 Hh Hok) as Hg.
    destruct (Hraise e' Hg) as [cause ->]. exists cause. exact Hg.
  - intros k image_bytes Hk.
    destruct (completions_cover sched (upload_tasks env image_bytes_list) w k)
      as [r Hr].
    { rewrite Hlen. apply lookup_lt_is_Some. eexists; exact Hk. }
    rewrite Hlen in Hr.
    destruct (completed_upload env image_bytes_list sched w k r Hfresh Hr)
      as (image' & calls & Himage & Htrace & Hcall & Hlink).
    assert (image' = image_bytes) as -> by congruence.
    exists r, calls. split; [exact Hr|]. split; [exact Htrace|].
    split; [exact Hcall | exact Hlink].
Qed.

Lemma sample_env_fresh r d grant : fresh_ids (Sample.env r d grant).
Proof.
  intros w filename content file_id [= <-]. apply not_elem_of_dom, is_fresh.
Qed.

Lemma flaky_env_fresh d : fresh_ids (Sample.flaky_env d).
Proof.
  intros w filename content file_id [= <-]. apply not_elem_of_dom, is_fresh.
Qed.

Lemma a_failed_upload_neither_stops_nor_undoes_the_others_witness :
  (exists cause,
      fst (gather [1; 0]%nat
             (upload_tasks (Sample.flaky_env (Sample.document 2))
                           [Sample.page 0; Sample.page 1])
             initial_world)
      = Raise (HTTPException 500 "Error uploading images." (Some cause))) /\
  exists r calls,
    (0%nat, r) ∈
      completions (completion_order (length [Sample.page 0; Sample.page 1]) [1; 0]%nat)
        (upload_tasks (Sample.flaky_env (Sample.document 2))
                      [Sample.page 0; Sample.page 1])
        initial_world /\
    trace (snd (gather [1; 0]%nat
                  (upload_tasks (Sample.flaky_env (Sample.document 2))
                                [Sample.page 0; Sample.page 1])
                  initial_world))
      = trace initial_world ++ calls /\
    EvFilesCreate ("page" +:+ pretty (0 + 1)%nat +:+ ".png") ∈ calls /\
    forall link,
      r = Ok link ->
      exists file_id,
        link = "https://drive.google.com/uc?id=" +:+ file_id /\
        files (snd (gather [1; 0]%nat
                      (upload_tasks (Sample.flaky_env (Sample.document 2))
                                    [Sample.page 0; Sample.page 1])
                      initial_world)) !! file_id
          = Some {| name := "page" +:+ pretty (0 + 1)%nat +:+ ".png";
                    parents := [GDRIVE_FOLDER_ID (Sample.flaky_env (Sample.document 2))];
                    mimeType := "image/png"; media := Sample.page 0;
                    anyone_reader := true |}.
Proof.
  destruct (a_failed_upload_neither_stops_nor_undoes_the_others
              (Sample.flaky_env (Sample.document 2))
              [Sample.page 0; Sample.page 1] [1; 0]%nat initial_world
              (flaky_env_fresh (Sample.document 2)))
    as (Hfails & _ & Hothers).
  split.
  - apply (Hfails 1%nat (HTTPException 500 "Error uploading images."
                           (Some (OtherException "HttpError 403")))).
    vm_compute. apply list_elem_of_here.
  - apply (Hothers 0%nat (Sample.page 0)). reflexivity.
Defined.

(** X14. When Drive never reuses an identifier and [gather] returns the
    list of links, the links of two different pages differ. *)
Theorem pages_get_distinct_links env image_bytes_list sched w image_urls i j a b :
  fresh_ids env ->
  fst (gather sched (upload_tasks env image_bytes_list) w) = Ok image_urls ->
  i <> j ->
  image_urls !! i = Some a ->
  image_urls !! j = Some b ->
  a <> b.
Proof.
  intros Hfresh Hok Hne Ha Hb Heq. subst b.
  destruct (gather_by_index _ _ _ _ Hok) as [_ Hidx].
  rewrite upload_tasks_length in Hidx.
  apply Hidx in Ha, Hb.
  destruct (completed_upload _ _ _ _ _ _ Hfresh Ha) as (image_i & _ & _ & _ & _ & Hi).
  destruct (completed_upload _ _ _ _ _ _ Hfresh Hb) as (image_j & _ & _ & _ & _ & Hj).
  destruct (Hi a eq_refl) as (id_i & Hlink_i & Hfile_i).
  destruct (Hj a eq_refl) as (id_j & Hlink_j & Hfile_j).
  assert (id_i = id_j) as ->.
  { apply (inj (String.app "https://drive.google.com/uc?id=")).
    unfold shareable_link in *. congruence. }
  rewrite Hfile_i in Hfile_j.
  apply Hne, page_filename_inj. congruence.
Qed.

Lemma pages_get_distinct_links_witness :
  "https://drive.google.com/uc?id=1" <> "https://drive.google.com/uc?id=0".
Proof.
  apply (pages_get_distinct_links
           (Sample.env (Sample.response 200 "application/pdf" Sample.pdf)
                       (Sample.document 2) None)
           [Sample.page 0; Sample.page 1] [1; 0]%nat initial_world
           ["https://drive.google.com/uc?id=1"; "https://drive.google.com/uc?id=0"]
           0%nat 1%nat).
  - apply sample_env_fresh.
  - vm_compute. reflexivity.
  - lia.
  - reflexivity.
  - reflexivity.
Defined.

(** X15. When uploads fail, the exception [gather] raises, and with it the
    one the endpoint logs as the cause, is that of the upload that failed
    first in order of completion, whatever its position in the page
    order. *)
Theorem first_failed_upload_is_the_one_reported
    env image_bytes_list sched w h1 k e h2 :
  completions (completion_order (length image_bytes_list) sched)
              (upload_tasks env image_bytes_list) w
    = h1 ++ (k, Raise e) :: h2 ->
  (forall k' r, (k', r) ∈ h1 -> is_Ok r = true) ->
  fst (gather sched (upload_tasks env image_bytes_list) w) = Raise e.
Proof.
  intros Hh Hok. apply (gather_first_failure sched _ w h1 k e h2); [|exact Hok].
  rewrite upload_tasks_length. exact Hh.
Qed.

Lemma first_failed_upload_is_the_one_reported_witness :
  fst (gather [1; 0]%nat
         (upload_tasks
            (Sample.env (Sample.response 200 "application/pdf" Sample.pdf)
                        (Sample.document 2) (Some (OtherException "HttpError 403")))
            [Sample.page 0; Sample.page 1])
         initial_world)
  = Raise (HTTPException 500 "Error uploading images."
             (Some (OtherException "HttpError 403"))).
Proof.
  apply (first_failed_upload_is_the_one_reported
           (Sample.env (Sample.response 200 "application/pdf" Sample.pdf)
                       (Sample.document 2) (Some (OtherException "HttpError 403")))
           [Sample.page 0; Sample.page 1] [1; 0]%nat initial_world
           [] 1%nat _
           [(0%nat, Raise (HTTPException 500 "Error uploading images."
                             (Some (OtherException "HttpError 403"))))]).
  - vm_compute. reflexivity.
  - intros k' r Hin. apply elem_of_nil in Hin. contradiction.
Defined.

(** ** The endpoint as a whole *)

Lemma download_pdf_quiet env url : quiet (download_pdf env url).
Proof.
  intros w. destruct (download_pdf_outcome env url w) as (Hf & Ht & _).
  split; [exact Hf|]. destruct Ht as [Ht|Ht]; rewrite Ht; eexists;
    (split; [reflexivity|]); repeat constructor.
Qed.

Lemma only_drive_calls_refl w : only_drive_calls w w.
Proof. exists []. rewrite app_nil_r. split; [reflexivity|constructor]. Qed.

Lemma only_drive_calls_trans w1 w2 w3 :
  only_drive_calls w1 w2 -> only_drive_calls w2 w3 -> only_drive_calls w1 w3.
Proof.
  intros (c1 & H1 & Hc1) (c2 & H2 & Hc2). exists (c1 ++ c2).
  rewrite H2, H1, <- app_assoc. split; [reflexivity|]. apply Forall_app. auto.
Qed.

Lemma gather_uploads_only_drive_calls env image_bytes_list sched w :
  only_drive_calls w (snd (gather sched (upload_tasks env image_bytes_list) w)).
Proof.
  destruct (decide (upload_tasks env image_bytes_list = [])) as [Hnil|Hne].
  - rewrite Hnil. apply only_drive_calls_refl.
  - rewrite (gather_world _ _ _ Hne).
    apply (run_children_rel only_drive_calls only_drive_calls_refl only_drive_calls_trans).
    intros k task w0 Hk. apply upload_tasks_lookup in Hk as (image_bytes & _ & ->).
    destruct (upload_image_to_gdrive_trace env image_bytes (page_filename k) w0)
      as (rest & Ht & Hrest).
    exists (EvFilesCreate (page_filename k) :: rest).
    split; [exact Ht|]. constructor; [reflexivity|exact Hrest].
Qed.

(** X16. In every run of the endpoint the stages follow one another: the
    calls it makes are first calls that are not Drive calls (the GET, the
    read, opening the document, loading pages) and then Drive calls only.
    No upload starts before the last page has been rendered, and nothing
    is fetched or rendered once the uploads have started. *)
Theorem uploads_start_after_the_last_page env sched url w :
  exists before uploads,
    trace (snd (convert_pdf env sched url w)) = trace w ++ before ++ uploads /\
    Forall (fun ev => is_drive_call ev = false) before /\
    Forall (fun ev => is_drive_call ev = true) uploads.
Proof.
  unfold convert_pdf, bind.
  destruct (download_pdf_quiet env url w) as (_ & c1 & Ht1 & Hc1).
  destruct (download_pdf env url w) as [[pdf_bytes|e] w1]; simpl in Ht1.
  2:{ exists c1, []. rewrite app_nil_r. simpl. auto. }
  destruct (convert_pdf_to_images_quiet env pdf_bytes w1) as (_ & c2 & Ht2 & Hc2).
  destruct (convert_pdf_to_images env pdf_bytes w1) as [[images|e] w2]; simpl in Ht2.
  2:{ exists (c1 ++ c2), []. rewrite app_nil_r. simpl.
      rewrite Ht2, Ht1, <- app_assoc. split; [reflexivity|].
      split; [apply Forall_app; auto | constructor]. }
  destruct (gather_uploads_only_drive_calls env images sched w2) as (c3 & Ht3 & Hc3).
  exists (c1 ++ c2), c3.
  assert (Hgoal : trace (snd (gather sched (upload_tasks env images) w2))
                  = trace w ++ (c1 ++ c2) ++ c3).
  { rewrite Ht3, Ht2, Ht1, <- !app_assoc. reflexivity. }
  split; [|split; [apply Forall_app; auto | exact Hc3]].
  destruct (gather sched (upload_tasks env images) w2) as [[[|u urls]|e] w3];
    exact Hgoal.
Qed.

(** X17. Unless the fetch and the rasterizer both succeed and at least one
    page image comes out, the request makes no Drive call and leaves the
    objects Drive holds as they are. *)
Theorem drive_is_left_alone_unless_pages_were_rendered env sched url w :
  (forall pdf_bytes image_bytes_list,
      fst (download_pdf env url w) = Ok pdf_bytes ->
      fst (convert_pdf_to_images env pdf_bytes (snd (download_pdf env url w)))
        = Ok image_bytes_list ->
      image_bytes_list = []) ->
  files (snd (convert_pdf env sched url w)) = files w /\
  exists calls,
    trace (snd (convert_pdf env sched url w)) = trace w ++ calls /\
    Forall (fun ev => is_drive_call ev = false) calls.
Proof.
  unfold convert_pdf, bind. intros Hnone.
  destruct (download_pdf_quiet env url w) as (Hf1 & c1 & Ht1 & Hc1).
  destruct (download_pdf env url w) as [[pdf_bytes|e] w1]; simpl in *.
  2:{ split; [exact Hf1|]. exists c1. auto. }
  specialize (Hnone pdf_bytes).
  destruct (convert_pdf_to_images_quiet env pdf_bytes w1) as (Hf2 & c2 & Ht2 & Hc2).
  destruct (convert_pdf_to_images env pdf_bytes w1) as [[images|e] w2]; simpl in *.
  2:{ split; [congruence|]. exists (c1 ++ c2).
      rewrite Ht2, Ht1, <- app_assoc. split; [reflexivity | apply Forall_app; auto]. }
  rewrite (Hnone images eq_refl eq_refl). simpl.
  split; [congruence|]. exists (c1 ++ c2).
  rewrite Ht2, Ht1, <- app_assoc. split; [reflexivity | apply Forall_app; auto].
Qed.

Lemma drive_is_left_alone_unless_pages_were_rendered_witness :
  files (snd (convert_pdf
                (Sample.env (Sample.response 200 "application/pdf" Sample.pdf)
                            (Sample.document 301) None)
                [] Sample.url initial_world)) = files initial_world /\
  exists calls,
    trace (snd (convert_pdf
                  (Sample.env (Sample.response 200 "application/pdf" Sample.pdf)
                              (Sample.document 301) None)
                  [] Sample.url initial_world)) = trace initial_world ++ calls /\
    Forall (fun ev => is_drive_call ev = false) calls.
Proof.
  apply (drive_is_left_alone_unless_pages_were_rendered
           (Sample.env (Sample.response 200 "application/pdf" Sample.pdf)
                       (Sample.document 301) None)
           [] Sample.url initial_world).
  intros pdf_bytes image_bytes_list Hd. vm_compute in Hd. injection Hd as <-.
  vm_compute. discriminate.
Defined.

(** X18. Every run of the handler [convert_pdf] ends with status 200, 400
    or 500, and every exception that leaves it is an [HTTPException]
    carrying one of five fixed messages.  (A request whose body fails the
    validation of [PDFUrl] never reaches the handler; the framework
    answers it on its own.)  The messages that name the offending status
    code, content type or page count are raised inside [try] blocks and
    replaced there, so none of them reaches the caller.  The same holds
    with the rasterizer's diagnostic calls in place, whatever they do. *)
Theorem handler_runs_end_in_200_400_or_500 env sched url w :
  ((response_status (fst (convert_pdf env sched url w)) = 200 \/
    response_status (fst (convert_pdf env sched url w)) = 400 \/
    response_status (fst (convert_pdf env sched url w)) = 500) /\
   forall e,
     fst (convert_pdf env sched url w) = Raise e ->
     exists context,
       e = HTTPException 400 "Client error occurred while downloading PDF." context \/
       e = HTTPException 500 "Unexpected error occurred." context \/
       e = HTTPException 500 "Error converting PDF to images." context \/
       e = HTTPException 500 "Error uploading images." context \/
       e = HTTPException 500 "No images were generated." context) /\
  forall diag,
    (response_status (fst (convert_pdf_logged diag env sched url w)) = 200 \/
     response_status (fst (convert_pdf_logged diag env sched url w)) = 400 \/
     response_status (fst (convert_pdf_logged diag env sched url w)) = 500) /\
    forall e,
      fst (convert_pdf_logged diag env sched url w) = Raise e ->
      exists context,
        e = HTTPException 400 "Client error occurred while downloading PDF." context \/
        e = HTTPException 500 "Unexpected error occurred." context \/
        e = HTTPException 500 "Error converting PDF to images." context \/
        e = HTTPException 500 "Error uploading images." context \/
        e = HTTPException 500 "No images were generated." context.
Proof.
  assert (Hraise : forall e,
             fst (convert_pdf env sched url w) = Raise e ->
             exists context,
               e = HTTPException 400 "Client error occurred while downloading PDF."
                     context \/
               e = HTTPException 500 "Unexpected error occurred." context \/
               e = HTTPException 500 "Error converting PDF to images." context \/
               e = HTTPException 500 "Error uploading images." context \/
               e = HTTPException 500 "No images were generated." context).
  { unfold convert_pdf, bind.
    destruct (download_pdf_outcome env url w) as (_ & _ & Hd).
    destruct (download_pdf env url w) as [[pdf_bytes|e1] w1]; simpl in Hd.
    2:{ simpl. intros e [= <-].
        destruct (Hd e1 eq_refl) as [cause [[_ ->]|[_ ->]]]; eexists; eauto. }
    pose proof (convert_pdf_to_images_Raise env pdf_bytes w1) as Hc.
    destruct (convert_pdf_to_images env pdf_bytes w1) as [[images|e2] w2]; simpl in Hc.
    2:{ simpl. intros e [= <-]. destruct (Hc e2 eq_refl) as [cause ->].
        eexists; eauto 6. }
    pose proof (gather_Raise_inv sched (upload_tasks env images) w2) as Hg.
    destruct (gather sched (upload_tasks env images) w2) as [[[|u urls]|e3] w3];
      simpl in Hg; simpl.
    - intros e [= <-]. eexists; eauto 8.
    - discriminate.
    - intros e [= <-]. destruct (Hg e3 eq_refl) as [k Hk].
      apply completions_task in Hk as (task & w0 & Htask & Hres).
      apply upload_tasks_lookup in Htask as (image_bytes & _ & ->).
      apply upload_image_to_gdrive_Raise in Hres as [cause ->].
      eexists; eauto 8. }
  assert (Hstatus : response_status (fst (convert_pdf env sched url w)) = 200 \/
                    response_status (fst (convert_pdf env sched url w)) = 400 \/
                    response_status (fst (convert_pdf env sched url w)) = 500).
  { destruct (fst (convert_pdf env sched url w)) as [urls|e]; [left; reflexivity|].
    destruct (Hraise e eq_refl) as [context [->|[->|[->|[->| ->]]]]]; simpl; auto. }
  split; [split; [exact Hstatus | exact Hraise]|].
  intros diag.
  destruct (convert_pdf_logged_cases diag env sched url w)
    as [->|(cause & w' & ->)]; [split; [exact Hstatus | exact Hraise]|].
  simpl. split; [auto|]. intros e [= <-]. eexists; eauto 6.
Qed.

Lemma upload_image_to_gdrive_total env image_bytes filename w :
  (forall w0 n b, is_Ok (files_create_reply env w0 n b) = true) ->
  (forall w0 file_id, permissions_create_reply env w0 file_id = None) ->
  is_Ok (fst (upload_image_to_gdrive env image_bytes filename w)) = true.
Proof.
  intros Hcreate Hgrant. rewrite upload_image_to_gdrive_unfold.
  pose proof (Hcreate w filename image_bytes) as Hc.
  destruct (files_create_reply env w filename image_bytes) as [file_id|e];
    [|discriminate].
  cbv zeta. rewrite Hgrant. reflexivity.
Qed.

(** X19. A request for which every part does its job (a 200 answer with a
    PDF content type and a body of at most 10 MiB that parses into a
    document of 1 to 300 pages, each of which renders, the rasterizer's two
    diagnostic calls returning, and a Drive that refuses nothing) is
    answered with status 200 and exactly one link per page of the
    document, in whatever order the uploads finish.  This is stated of the
    handler with the diagnostic calls in place; without them it returns
    the same list. *)
Theorem a_clean_run_returns_one_link_per_page
    diag env sched url w response pdf_bytes doc :
  http_get env url = Ok response ->
  status response = 200 ->
  contains "pdf" (lower (headers_get (headers response) "Content-Type" "")) = true ->
  read response = Ok pdf_bytes ->
  (len pdf_bytes <= 10 * 1024 * 1024)%Z ->
  fitz_open env pdf_bytes = Ok doc ->
  (1 <= page_count doc <= 300)%nat ->
  (forall i, (i < page_count doc)%nat -> is_Ok (render doc i 100) = true) ->
  (forall w0 n b, is_Ok (files_create_reply env w0 n b) = true) ->
  (forall w0 file_id, permissions_create_reply env w0 file_id = None) ->
  diag "Before Conversion" = None ->
  diag "After Conversion" = None ->
  exists image_urls,
    fst (convert_pdf_logged diag env sched url w) = Ok image_urls /\
    fst (convert_pdf env sched url w) = Ok image_urls /\
    length image_urls = page_count doc /\
    response_status (fst (convert_pdf_logged diag env sched url w)) = 200.
Proof.
  intros Hget Hst Hct Hread Hlen Hopen [Hpos Hle] Hrender Hcreate Hgrant
    Hbefore Hafter.
  rewrite (convert_pdf_logged_plain _ _ _ _ _ Hbefore Hafter).
  assert (Hd : download_pdf env url w = (Ok pdf_bytes, emit EvRead (emit (EvGet url) w))).
  { destruct (download_pdf_cases env url w response Hget)
      as [[Hst' _]|[(_ & Hct' & _)|(_ & _ & ->)]]; [contradiction|congruence|].
    rewrite Hread.
    replace (len pdf_bytes >? MAX_PDF_SIZE)%Z with false; [reflexivity|].
    symmetry. rewrite Z.gtb_ltb. apply Z.ltb_ge. unfold MAX_PDF_SIZE. lia. }
  set (w1 := emit EvRead (emit (EvGet url) w)) in *.
  assert (Hc : exists images w2,
             convert_pdf_to_images env pdf_bytes w1 = (Ok images, w2) /\
             length images = page_count doc).
  { unfold convert_pdf_to_images, try_except.
    rewrite (convert_pdf_to_images_open _ _ _ _ Hopen).
    replace (MAX_PAGE_COUNT <? page_count doc)%nat with false
      by (symmetry; apply Nat.ltb_ge; exact Hle).
    rewrite Nat.min_l by exact Hle.
    pose proof (render_pages_total doc (seq 0 (page_count doc)) []
                  (emit (EvOpen pdf_bytes) w1)) as Htot.
    pose proof (render_pages_Ok doc (seq 0 (page_count doc)) []
                  (emit (EvOpen pdf_bytes) w1)) as Hinv.
    destruct (render_pages doc (seq 0 (page_count doc)) []
                (emit (EvOpen pdf_bytes) w1)) as [[images|e] w2].
    - exists images, w2. split; [reflexivity|].
      destruct (Hinv images eq_refl) as (pngs & -> & Hall & _).
      apply Forall2_length in Hall. rewrite length_seq in Hall. simpl. lia.
    - simpl in Htot. assert (false = true) as Habs; [|discriminate].
      apply Htot. intros n Hn. apply elem_of_seq in Hn. apply Hrender. lia. }
  destruct Hc as (images & w2 & Hc & Himages).
  assert (Hg : is_Ok (fst (gather sched (upload_tasks env images) w2)) = true).
  { apply gather_total. intros k r Hin.
    apply completions_task in Hin as (task & w0 & Htask & <-).
    apply upload_tasks_lookup in Htask as (image_bytes & _ & ->).
    apply upload_image_to_gdrive_total; assumption. }
  pose proof (gather_by_index sched (upload_tasks env images) w2) as Hidx.
  unfold convert_pdf, bind. rewrite Hd, Hc.
  destruct (gather sched (upload_tasks env images) w2) as [[urls|e] w3];
    [|discriminate].
  destruct (Hidx urls eq_refl) as [Hlen' _].
  rewrite upload_tasks_length, Himages in Hlen'.
  destruct urls as [|u urls]; [simpl in Hlen'; lia|].
  exists (u :: urls). simpl. auto.
Qed.

Lemma a_clean_run_returns_one_link_per_page_witness :
  exists image_urls,
    fst (convert_pdf_logged (fun _ => None)
           (Sample.env (Sample.response 200 "application/pdf" Sample.pdf)
                       (Sample.document 3) None)
           [2; 0; 1]%nat Sample.url initial_world) = Ok image_urls /\
    fst (convert_pdf
           (Sample.env (Sample.response 200 "application/pdf" Sample.pdf)
                       (Sample.document 3) None)
           [2; 0; 1]%nat Sample.url initial_world) = Ok image_urls /\
    length image_urls = page_count (Sample.document 3) /\
    response_status
      (fst (convert_pdf_logged (fun _ => None)
              (Sample.env (Sample.response 200 "application/pdf" Sample.pdf)
                          (Sample.document 3) None)
              [2; 0; 1]%nat Sample.url initial_world)) = 200.
Proof.
  apply (a_clean_run_returns_one_link_per_page (fun _ => None)
           (Sample.env (Sample.response 200 "application/pdf" Sample.pdf)
                       (Sample.document 3) None)
           [2; 0; 1]%nat Sample.url initial_world
           (Sample.response 200 "application/pdf" Sample.pdf) Sample.pdf
           (Sample.document 3)).
  - reflexivity.
  - reflexivity.
  - vm_compute. reflexivity.
  - reflexivity.
  - vm_compute. discriminate.
  - reflexivity.
  - simpl. lia.
  - intros i _. reflexivity.
  - intros w0 n b. reflexivity.
  - intros w0 file_id. reflexivity.
  - reflexivity.
  - reflexivity.
Defined.

Lemma convert_pdf_to_images_Ok_inv env pdf_bytes w image_bytes_list :
  fst (convert_pdf_to_images env pdf_bytes w) = Ok image_bytes_list ->
  exists doc,
    fitz_open env pdf_bytes = Ok doc /\
    (page_count doc <= 300)%nat /\
    length image_bytes_list = page_count doc.
Proof.
  unfold convert_pdf_to_images, try_except.
  destruct (fitz_open env pdf_bytes) as [doc|e] eqn:Hopen.
  - rewrite (convert_pdf_to_images_open _ _ _ _ Hopen).
    destruct (MAX_PAGE_COUNT <? page_count doc)%nat eqn:Hmany; [simpl; discriminate|].
    apply Nat.ltb_ge in Hmany. unfold MAX_PAGE_COUNT in Hmany.
    rewrite Nat.min_l by exact Hmany.
    pose proof (render_pages_Ok doc (seq 0 (page_count doc)) []
                  (emit (EvOpen pdf_bytes) w)) as Hinv.
    destruct (render_pages doc (seq 0 (page_count doc)) []
                (emit (EvOpen pdf_bytes) w)) as [[images|e] w']; [|simpl; discriminate].
    simpl. intros [= <-]. exists doc. split; [reflexivity|]. split; [exact Hmany|].
    destruct (Hinv images eq_refl) as (pngs & -> & Hall & _).
    apply Forall2_length in Hall. rewrite length_seq in Hall. simpl. lia.
  - unfold convert_pdf_to_images_body, bind, call. rewrite Hopen. simpl. discriminate.
Qed.

(** X20. Whenever the endpoint returns links, the body it fetched has at
    most 10 MiB, parsed into a document of 1 to 300 pages, and the number
    of links is that document's page count. *)
Theorem a_successful_answer_has_one_to_300_links env sched url w image_urls :
  fst (convert_pdf env sched url w) = Ok image_urls ->
  exists pdf_bytes doc,
    fst (download_pdf env url w) = Ok pdf_bytes /\
    (len pdf_bytes <= 10485760)%Z /\
    fitz_open env pdf_bytes = Ok doc /\
    length image_urls = page_count doc /\
    (1 <= length image_urls <= 300)%nat.
Proof.
  unfold convert_pdf, bind.
  pose proof (download_pdf_Ok_inv env url w) as Hd.
  destruct (download_pdf env url w) as [[pdf_bytes|e] w1]; [|simpl; discriminate].
  destruct (Hd pdf_bytes eq_refl) as (response & _ & _ & _ & _ & Hsize).
  pose proof (convert_pdf_to_images_Ok_inv env pdf_bytes w1) as Hc.
  destruct (convert_pdf_to_images env pdf_bytes w1) as [[images|e] w2];
    [|simpl; discriminate].
  destruct (Hc images eq_refl) as (doc & Hopen & Hle & Hlen).
  pose proof (gather_by_index sched (upload_tasks env images) w2) as Hidx.
  destruct (gather sched (upload_tasks env images) w2) as [[urls|e] w3];
    [|simpl; discriminate].
  destruct (Hidx urls eq_refl) as [Hlen' _]. rewrite upload_tasks_length in Hlen'.
  destruct urls as [|u urls]; simpl; [discriminate|].
  intros [= <-]. exists pdf_bytes, doc.
  split; [reflexivity|]. split; [exact Hsize|]. split; [exact Hopen|].
  assert (Hcount : length (u :: urls) = page_count doc)
    by (etransitivity; [exact Hlen' | exact Hlen]).
  split; [exact Hcount|]. rewrite Hcount. simpl in Hcount. lia.
Qed.

Lemma a_successful_answer_has_one_to_300_links_witness :
  exists pdf_bytes doc,
    fst (download_pdf
           (Sample.env (Sample.response 200 "application/pdf" Sample.pdf)
                       (Sample.document 2) None)
           Sample.url initial_world) = Ok pdf_bytes /\
    (len pdf_bytes <= 10485760)%Z /\
    fitz_open (Sample.env (Sample.response 200 "application/pdf" Sample.pdf)
                          (Sample.document 2) None) pdf_bytes = Ok doc /\
    length ["https://drive.google.com/uc?id=0"; "https://drive.google.com/uc?id=1"]
      = page_count doc /\
    (1 <= length ["https://drive.google.com/uc?id=0"; "https://drive.google.com/uc?id=1"]
     <= 300)%nat.
Proof.
  apply (a_successful_answer_has_one_to_300_links
           (Sample.env (Sample.response 200 "application/pdf" Sample.pdf)
                       (Sample.document 2) None)
           [] Sample.url initial_world).
  vm_compute. reflexivity.
Defined.

Lemma download_pdf_returns_exactly_the_accepted_body_witness :
  fst (download_pdf
         (Sample.env (Sample.response 200 "Application/PDF; charset=binary" Sample.pdf)
                     (Sample.document 1) None)
         Sample.url initial_world) = Ok Sample.pdf.
Proof.
  apply (proj2 (download_pdf_returns_exactly_the_accepted_body _ _ _ _)).
  exists (Sample.response 200 "Application/PDF; charset=binary" Sample.pdf).
  split; [reflexivity|]. split; [reflexivity|]. split; [vm_compute; reflexivity|].
  split; [reflexivity|]. vm_compute. discriminate.
Defined.

Lemma download_pdf_calls_and_errors_witness :
  exists cause,
    (is_ClientError cause = true /\
     HTTPException 500 "Unexpected error occurred."
       (Some (HTTPException 400 "Failed to download PDF. Status code: 404" None))
     = HTTPException 400 "Client error occurred while downloading PDF." (Some cause)) \/
    (is_ClientError cause = false /\
     HTTPException 500 "Unexpected error occurred."
       (Some (HTTPException 400 "Failed to download PDF. Status code: 404" None))
     = HTTPException 500 "Unexpected error occurred." (Some cause)).
Proof.
  apply (proj2 (proj2 (download_pdf_calls_and_errors
                         (Sample.env (Sample.response 404 "application/pdf" Sample.pdf)
                                     (Sample.document 1) None)
                         Sample.url initial_world))).
  vm_compute. reflexivity.
Defined.

Lemma handler_runs_end_in_200_400_or_500_witness :
  exists context,
    HTTPException 500 "No images were generated." None
      = HTTPException 400 "Client error occurred while downloading PDF." context \/
    HTTPException 500 "No images were generated." None
      = HTTPException 500 "Unexpected error occurred." context \/
    HTTPException 500 "No images were generated." None
      = HTTPException 500 "Error converting PDF to images." context \/
    HTTPException 500 "No images were generated." None
      = HTTPException 500 "Error uploading images." context \/
    HTTPException 500 "No images were generated." None
      = HTTPException 500 "No images were generated." context.
Proof.
  apply (proj2 (proj1 (handler_runs_end_in_200_400_or_500
                         (Sample.env (Sample.response 200 "application/pdf" Sample.pdf)
                                     (Sample.document 0) None)
                         [] Sample.url initial_world))).
  vm_compute. reflexivity.
Defined.

(** ** The handler with and without the diagnostic calls *)

(** X21. The rasterizer's two diagnostic calls can do one thing to a
    request: fail it with "Error converting PDF to images." (status 500),
    and then nothing has been uploaded (no Drive call, Drive's objects
    unchanged).  In every other run, in particular whenever both calls
    return and whenever links are returned, the handler with the calls in
    place does exactly what [convert_pdf] does: same outcome, same remote
    calls, same objects in Drive. *)
Theorem diagnostics_only_add_the_rasterizer_failure diag env sched url w :
  (diag "Before Conversion" = None ->
   diag "After Conversion" = None ->
   convert_pdf_logged diag env sched url w = convert_pdf env sched url w) /\
  (forall image_urls,
      fst (convert_pdf_logged diag env sched url w) = Ok image_urls ->
      convert_pdf_logged diag env sched url w = convert_pdf env sched url w) /\
  (convert_pdf_logged diag env sched url w = convert_pdf env sched url w \/
   exists cause calls,
     fst (convert_pdf_logged diag env sched url w)
     = Raise (HTTPException 500 "Error converting PDF to images." (Some cause)) /\
     files (snd (convert_pdf_logged diag env sched url w)) = files w /\
     trace (snd (convert_pdf_logged diag env sched url w)) = trace w ++ calls /\
     Forall (fun ev => is_drive_call ev = false) calls).
Proof.
  split; [apply convert_pdf_logged_plain|].
  split; [apply convert_pdf_logged_Ok|].
  unfold convert_pdf_logged, convert_pdf, bind.
  destruct (download_pdf_quiet env url w) as (Hf1 & c1 & Ht1 & Hc1).
  destruct (download_pdf env url w) as [[pdf_bytes|e] w1]; [|left; reflexivity].
  cbn [snd] in Hf1, Ht1.
  destruct (convert_pdf_to_images_quiet env pdf_bytes w1) as (Hf2 & c2 & Ht2 & Hc2).
  destruct (convert_pdf_to_images_logged_cases diag env pdf_bytes w1)
    as [->|(cause & w' & -> & Hw')]; [left; reflexivity|].
  right. cbn [fst snd]. destruct Hw' as [->| ->].
  - exists cause, c1. auto.
  - exists cause, (c1 ++ c2). split; [reflexivity|]. split; [congruence|].
    rewrite Ht2, Ht1, <- app_assoc. split; [reflexivity | apply Forall_app; auto].
Qed.

Lemma diagnostics_only_add_the_rasterizer_failure_witness :
  convert_pdf_logged (fun _ => None)
    (Sample.env (Sample.response 200 "application/pdf" Sample.pdf)
                (Sample.document 2) None)
    [1; 0]%nat Sample.url initial_world
  = convert_pdf
      (Sample.env (Sample.response 200 "application/pdf" Sample.pdf)
                  (Sample.document 2) None)
      [1; 0]%nat Sample.url initial_world.
Proof.
  apply (proj1 (diagnostics_only_add_the_rasterizer_failure (fun _ => None)
                  (Sample.env (Sample.response 200 "application/pdf" Sample.pdf)
                              (Sample.document 2) None)
                  [1; 0]%nat Sample.url initial_world)).
  - reflexivity.
  - reflexivity.
Defined.
